(** * Webhook correlation engine: callback ingestion, batch records, flattening

    Shallow embedding of [src/app.py], [src/lib/storage.py],
    [src/lib/csv_writer.py] and [src/services/signalhire_client.py].  The files under [DATA_ROOT] are modelled as an
    explicit store that every storage function takes and returns; Python
    exceptions are modelled by a small error monad.

    Conventions of the model:
    - reading and writing the files does not fail, and a request id or a batch
      id names exactly one file or directory; the one failure of a write that
      is modelled, a text that the encoding of [results.json] or [results.csv]
      rejects, is in the handler [callback_io], which [callback] is for the
      deliveries whose result files can be written;
    - a handler runs from its first line to its last before the next one
      starts (the interleavings of concurrent handlers are not modelled);
    - what the outside world decides is an input of the handler: the parsed
      body of a delivery, the answer of the provider to a submission, whether
      the mail transport raises, the reading of the clock. *)

From Stdlib Require Import ZArith String Ascii List Lia PrimFloat.
From stdpp Require Import base option strings pretty list gmap.
Import ListNotations.

Local Open Scope Z_scope.

(** ** Python values decoded from JSON *)

#[local] Set Warnings "-register-all".

(** What [json.loads] / [request.json()] can return.  An object is kept as
    the association list of its members; [dict.get] reads the first binding of
    a key (a decoded object has one binding per key). *)
Inductive json : Type :=
| JNull
| JBool (b : bool)
| JInt (z : Z)
| JFloat (f : float)
| JStr (s : string)
| JList (l : list json)
| JObj (o : list (string * json)).

(** Exceptions that the modelled code can raise. *)
Inductive exn : Type :=
| AttributeError (ty attr : string)
| TypeError_not_iterable (ty : string)
| JSONDecodeError (msg : string)
| MailError (msg : string)
| UnicodeEncodeError (msg : string).

Inductive result (A : Type) : Type :=
| Ok (a : A)
| Raise (e : exn).
Arguments Ok {A} a.
Arguments Raise {A} e.

#[global] Instance result_bind : MBind result := fun A B k m =>
  match m with
  | Ok a => k a
  | Raise e => Raise e
  end.

Fixpoint mapM {A B} (f : A -> result B) (l : list A) : result (list B) :=
  match l with
  | [] => Ok []
  | a :: l' => b ← f a; bs ← mapM f l'; Ok (b :: bs)
  end.

(** [type(x).__name__] *)
Definition type_name (x : json) : string :=
  match x with
  | JNull => "NoneType"
  | JBool _ => "bool"
  | JInt _ => "int"
  | JFloat _ => "float"
  | JStr _ => "str"
  | JList _ => "list"
  | JObj _ => "dict"
  end.

(** [str(e)] *)
Definition str_exn (e : exn) : string :=
  match e with
  | AttributeError ty attr =>
      "'" +:+ ty +:+ "' object has no attribute '" +:+ attr +:+ "'"
  | TypeError_not_iterable ty => "'" +:+ ty +:+ "' object is not iterable"
  | JSONDecodeError msg => msg
  | MailError msg => msg
  | UnicodeEncodeError msg => msg
  end.

(** [bool(x)] *)
Definition truthy (x : json) : bool :=
  match x with
  | JNull => false
  | JBool b => b
  | JInt z => negb (z =? 0)
  | JFloat f => negb (PrimFloat.eqb f PrimFloat.zero)
  | JStr s => negb (String.eqb s "")
  | JList l => match l with [] => false | _ => true end
  | JObj o => match o with [] => false | _ => true end
  end.

(** [a or b] *)
Definition py_or (a b : json) : json := if truthy a then a else b.

Fixpoint assoc (k : string) (o : list (string * json)) : option json :=
  match o with
  | [] => None
  | (k', v) :: o' => if String.eqb k k' then Some v else assoc k o'
  end.

(** [x.get(k)]: [None] for a missing key, [AttributeError] off a dict. *)
Definition py_get (x : json) (k : string) : result json :=
  match x with
  | JObj o => Ok (default JNull (assoc k o))
  | _ => Raise (AttributeError (type_name x) "get")
  end.

Fixpoint chars (s : string) : list json :=
  match s with
  | EmptyString => []
  | String c s' => JStr (String c EmptyString) :: chars s'
  end.

(** The elements a [for] loop over [x] visits. *)
Definition py_iter (x : json) : result (list json) :=
  match x with
  | JList l => Ok l
  | JStr s => Ok (chars s)
  | JObj o => Ok (map (fun kv => JStr (fst kv)) o)
  | _ => Raise (TypeError_not_iterable (type_name x))
  end.

(** ** [lib/csv_writer.py] *)

(** One row of [results.csv]; the fields are the keys of the row dict. *)
Record row : Type := mk_row {
  uid : json;
  full_name : json;
  status : json;
  linkedin_url : json;
  contact_type : json;
  contact_value : json;
  contact_subtype : json
}.

(** Lower-casing restricted to the ASCII letters; the instance of
    [str.lower] used on the concrete inputs below. *)
Definition ascii_lower_char (c : ascii) : ascii :=
  let n := N_of_ascii c in
  if ((65 <=? n) && (n <=? 90))%N then ascii_of_N (n + 32) else c.

Fixpoint ascii_lower (s : string) : string :=
  match s with
  | EmptyString => EmptyString
  | String c s' => String (ascii_lower_char c) (ascii_lower s')
  end.

Definition is_ascii_space (c : ascii) : bool :=
  let n := N_of_ascii c in
  (((9 <=? n) && (n <=? 13)) || ((28 <=? n) && (n <=? 32)))%N.

Fixpoint lstrip (s : string) : string :=
  match s with
  | EmptyString => EmptyString
  | String c s' => if is_ascii_space c then lstrip s' else s
  end.

Fixpoint rstrip (s : string) : string :=
  match s with
  | EmptyString => EmptyString
  | String c s' =>
      match rstrip s' with
      | EmptyString => if is_ascii_space c then EmptyString else String c EmptyString
      | t => String c t
      end
  end.

(** Stripping of the ASCII white space; the instance of [str.strip] used on
    the concrete inputs below. *)
Definition ascii_strip (s : string) : string := rstrip (lstrip s).

(** ** [lib/storage.py]: the files under [DATA_ROOT] *)

(** An entry of the ["errors"] list of a batch's status. *)
Inductive error_entry : Type :=
| ItemError (item : string) (error : option string)
| EmailError (email_error : string)
| CallbackError (callback_error : string).

(** What [submit_identifier] returns: [{success, request_id?, error?,
    diagnostics?}]. *)
Record submit_result : Type := mk_submit_result {
  success : bool;
  request_id : option string;
  error : option string;
  diagnostics : option json
}.

(** An entry of the ["submissions"] list. *)
Record submission : Type := mk_submission {
  sub_item : string;
  sub_success : bool;
  sub_request_id : option string;
  sub_error : option string;
  sub_diagnostics : option json
}.

(** The status dict kept in [status.json]; a key that is absent from the dict
    is [None], so that [{}] is [empty_status]. *)
Record batch_status : Type := mk_status {
  st_status : option string;
  st_email : option string;
  st_total_items : option Z;
  st_pending : option (list string);
  st_received : option Z;
  st_errors : option (list error_entry);
  st_submissions : option (list submission)
}.

Definition empty_status : batch_status :=
  mk_status None None None None None None None.

Definition set_st_status (v : string) (st : batch_status) : batch_status :=
  mk_status (Some v) (st_email st) (st_total_items st) (st_pending st)
    (st_received st) (st_errors st) (st_submissions st).

Definition set_st_pending (v : list string) (st : batch_status) : batch_status :=
  mk_status (st_status st) (st_email st) (st_total_items st) (Some v)
    (st_received st) (st_errors st) (st_submissions st).

Definition set_st_received (v : Z) (st : batch_status) : batch_status :=
  mk_status (st_status st) (st_email st) (st_total_items st) (st_pending st)
    (Some v) (st_errors st) (st_submissions st).

(** [st.setdefault("errors", []).append(e)] *)
Definition append_error (e : error_entry) (st : batch_status) : batch_status :=
  mk_status (st_status st) (st_email st) (st_total_items st) (st_pending st)
    (st_received st) (Some (default [] (st_errors st) ++ [e]))
    (st_submissions st).

(** [status["submissions"].append(s)] *)
Definition append_submission (s : submission) (st : batch_status) : batch_status :=
  mk_status (st_status st) (st_email st) (st_total_items st) (st_pending st)
    (st_received st) (st_errors st)
    (Some (default [] (st_submissions st) ++ [s])).

(** The files of one batch directory; [None] is a file that does not exist.
    [results.csv] is kept as its data rows: the header line is written together
    with the first rows and every row has the same seven keys. *)
Record batch_files : Type := mk_files {
  original_csv : option string;
  status_json : option batch_status;
  results_json : option (gmap string json);
  results_csv : option (list row)
}.

Definition no_files : batch_files := mk_files None None None None.

(** A call of the mail transport. *)
Inductive mail : Type :=
| ResultEmail (to_addr batch_id : string) (attachment : list row)
| ErrorEmail (to_addr batch_id error_msg : string).

(** [REQUESTS_DIR] (one file per request id, holding a batch id),
    [BATCHES_DIR] (one directory per batch id) and the calls made to the mail
    transport so far.  A request id or batch id names one file or directory. *)
Record world : Type := mk_world {
  requests : gmap string string;
  batches : gmap string batch_files;
  sent : list mail
}.

(** [batch_dir]: the directory is created on demand, so a batch id without
    files is a directory without files. *)
Definition batch_dir (batch_id : string) (w : world) : batch_files :=
  default no_files (batches w !! batch_id).

Definition set_batch_dir (batch_id : string) (d : batch_files) (w : world) : world :=
  mk_world (requests w) (<[batch_id := d]> (batches w)) (sent w).

Definition save_original_csv (batch_id content : string) (w : world) : world :=
  let d := batch_dir batch_id w in
  set_batch_dir batch_id
    (mk_files (Some content) (status_json d) (results_json d) (results_csv d)) w.

Definition write_status (batch_id : string) (st : batch_status) (w : world) : world :=
  let d := batch_dir batch_id w in
  set_batch_dir batch_id
    (mk_files (original_csv d) (Some st) (results_json d) (results_csv d)) w.

Definition read_status (batch_id : string) (w : world) : batch_status :=
  default empty_status (status_json (batch_dir batch_id w)).

Definition map_request_to_batch (request_id batch_id : string) (w : world) : world :=
  mk_world (<[request_id := batch_id]> (requests w)) (batches w) (sent w).

(** [data.setdefault(request_id, payload)] on the decoded [results.json],
    for a ledger whose text can be written; [append_results_json_io] has the
    write that raises. *)
Definition append_results_json (batch_id request_id : string) (payload : json)
    (w : world) : world :=
  let d := batch_dir batch_id w in
  let data := default ∅ (results_json d) in
  let data' := match data !! request_id with
               | Some _ => data
               | None => <[request_id := payload]> data
               end in
  set_batch_dir batch_id
    (mk_files (original_csv d) (status_json d) (Some data') (results_csv d)) w.

(** [append_results_csv] for rows that can be written;
    [append_results_csv_io] has the write that raises. *)
Definition append_results_csv (batch_id : string) (rows : list row) (w : world)
  : world :=
  match rows with
  | [] => w
  | _ =>
      let d := batch_dir batch_id w in
      set_batch_dir batch_id
        (mk_files (original_csv d) (status_json d) (results_json d)
           (Some (default [] (results_csv d) ++ rows))) w
  end.

(** [batch_csv_path(batch_id).exists()] *)
Definition csv_exists (batch_id : string) (w : world) : bool :=
  match results_csv (batch_dir batch_id w) with
  | Some _ => true
  | None => false
  end.

(** [bool(s)] for [s : str | None] *)
Definition truthy_str (s : option string) : bool :=
  match s with
  | Some s => negb (String.eqb s "")
  | None => false
  end.

(** [if x in l: l.remove(x)] *)
Fixpoint remove_first (x : string) (l : list string) : list string :=
  match l with
  | [] => []
  | y :: l' => if String.eqb x y then l' else y :: remove_first x l'
  end.

Definition send (m : mail) (w : world) : world :=
  mk_world (requests w) (batches w) (sent w ++ [m]).

(** *** What a status query reads of a batch *)

(** [status.get("received", 0)], [status.get("pending", [])],
    [status.get("errors", [])], and the contents of the two result files. *)
Definition received_of (batch_id : string) (w : world) : Z :=
  default 0 (st_received (read_status batch_id w)).

Definition pending_of (batch_id : string) (w : world) : list string :=
  default [] (st_pending (read_status batch_id w)).

Definition errors_of (batch_id : string) (w : world) : list error_entry :=
  default [] (st_errors (read_status batch_id w)).

Definition table_of (batch_id : string) (w : world) : list row :=
  default [] (results_csv (batch_dir batch_id w)).

Definition ledger_of (batch_id : string) (w : world) : gmap string json :=
  default ∅ (results_json (batch_dir batch_id w)).

Definition is_callback_error (e : error_entry) : bool :=
  match e with CallbackError _ => true | _ => false end.

(** The number of errors of the batch that come from failed callbacks. *)
Definition callback_errors (batch_id : string) (w : world) : Z :=
  Z.of_nat (length (List.filter is_callback_error (errors_of batch_id w))).

Definition is_complete (batch_id : string) (w : world) : bool :=
  match st_status (read_status batch_id w) with
  | Some s => String.eqb s "complete"
  | None => false
  end.

Definition is_result_email_for (batch_id : string) (m : mail) : bool :=
  match m with
  | ResultEmail _ b _ => String.eqb b batch_id
  | ErrorEmail _ _ _ => false
  end.

(** How many times the completion email of the batch was sent. *)
Definition result_emails (batch_id : string) (w : world) : nat :=
  length (List.filter (is_result_email_for batch_id) (sent w)).

(** ** [new_batch_id] *)

(** The fields of [datetime.utcnow()]. *)
Record datetime : Type := mk_datetime {
  year : N;
  month : N;
  day : N;
  hour : N;
  minute : N;
  second : N;
  microsecond : N
}.

(** The ranges [datetime] guarantees for the two fields that reach the id. *)
Definition valid_datetime (t : datetime) : Prop :=
  (second t < 60 ∧ microsecond t < 1000000)%N.

Definition digit (n : N) : ascii := ascii_of_N (48 + n).

(** [n] written with [w] decimal digits, zero-padded. *)
Fixpoint digits (w : nat) (n : N) : string :=
  match w with
  | O => ""
  | S w' => digits w' (n / 10) +:+ String (digit (n mod 10)) ""
  end.

(** [strftime("%Y%m%d_%H%M%S%f")] *)
Definition strftime (t : datetime) : string :=
  digits 4 (year t) +:+ digits 2 (month t) +:+ digits 2 (day t) +:+ "_"
  +:+ digits 2 (hour t) +:+ digits 2 (minute t) +:+ digits 2 (second t)
  +:+ digits 6 (microsecond t).

(** [s[-n:]] for [n > 0] *)
Definition last_chars (n : nat) (s : string) : string :=
  String.substring (String.length s - n) n s.

Definition new_batch_id (now : datetime) : string :=
  last_chars 8 (strftime now).

(** [str.lower] and [str.strip] are Python's; the engine is verified for any
    implementation of them. *)
Class PyStr : Type := {
  str_lower : string -> string;
  str_strip : string -> string
}.

Definition ascii_pystr : PyStr :=
  {| str_lower := ascii_lower; str_strip := ascii_strip |}.

Section Engine.

Context `{PyStr}.

(** [x.lower()] *)
Definition py_lower (x : json) : result string :=
  match x with
  | JStr s => Ok (str_lower s)
  | _ => Raise (AttributeError (type_name x) "lower")
  end.

(** [(s.get("type") or "").lower() in ("li", "linkedin")] *)
Definition is_linkedin (s : json) : result bool :=
  t ← py_get s "type";
  l ← py_lower (py_or t (JStr ""));
  Ok (String.eqb l "li" || String.eqb l "linkedin").

(** The loop over [socials]: the link of the first LinkedIn-typed entry,
    [None] when the loop ends without a [break]. *)
Fixpoint find_linkedin (socials : list json) : result json :=
  match socials with
  | [] => Ok JNull
  | s :: rest =>
      b ← is_linkedin s;
      if b : bool then py_get s "link" else find_linkedin rest
  end.

Definition contact_row (uid0 full_name0 status0 link : json) (c : json)
  : result row :=
  ty ← py_get c "type";
  v ← py_get c "value";
  st1 ← py_get c "subType";
  st2 ← py_get c "sub_type";
  Ok (mk_row uid0 full_name0 status0 link ty v (py_or st1 st2)).

(** The body of the loop over [items]: the rows appended for one item. *)
Definition flatten_item (it : json) : result (list row) :=
  status0 ← py_get it "status";
  original_item ← py_get it "item";
  cand0 ← py_get it "candidate";
  let cand := py_or cand0 (JObj []) in
  uid0 ← py_get cand "uid";
  fn1 ← py_get cand "fullName";
  fn2 ← py_get cand "full_name";
  let full_name0 := py_or fn1 fn2 in
  soc0 ← py_get cand "social";
  socials ← py_iter (py_or soc0 (JList []));
  linkedin ← find_linkedin socials;
  con0 ← py_get cand "contacts";
  let contacts := py_or con0 (JList []) in
  let link := py_or linkedin original_item in
  if truthy contacts then
    cs ← py_iter contacts;
    mapM (contact_row uid0 full_name0 status0 link) cs
  else
    Ok [mk_row uid0 full_name0 status0 link JNull JNull JNull].

Definition flatten_items (items : list json) : result (list row) :=
  rs ← mapM flatten_item items; Ok (concat rs).

Definition payload_items (payload : json) : list json :=
  match payload with
  | JList l => l
  | _ => [payload]
  end.

Definition flatten_callback_payload (payload : json) : result (list row) :=
  if negb (truthy payload) then Ok []
  else flatten_items (payload_items payload).

(** *** The expected shape of a payload

    The docstring of [flatten_callback_payload]: a list of items, each with
    [status], [item] and [candidate: { fullName, uid, contacts[], social[] }]. *)

(** The value of key [k] of a decoded object, [None] when absent. *)
Definition field (x : json) (k : string) : json :=
  match x with
  | JObj o => default JNull (assoc k o)
  | _ => JNull
  end.

Definition as_list (x : json) : list json :=
  match x with
  | JList l => l
  | _ => []
  end.

Definition is_obj (x : json) : bool :=
  match x with JObj _ => true | _ => false end.

Definition wf_social (s : json) : bool :=
  is_obj s &&
  match py_or (field s "type") (JStr "") with JStr _ => true | _ => false end.

(** An optional array: absent, null or empty, or a list of accepted entries. *)
Definition wf_array (f : json -> bool) (x : json) : bool :=
  if truthy x then
    match x with JList l => forallb f l | _ => false end
  else true.

Definition item_candidate (it : json) : json :=
  py_or (field it "candidate") (JObj []).

Definition wf_item (it : json) : bool :=
  is_obj it && is_obj (item_candidate it) &&
  wf_array wf_social (field (item_candidate it) "social") &&
  wf_array is_obj (field (item_candidate it) "contacts").

Definition wf_payload (payload : json) : bool :=
  forallb wf_item (payload_items payload).

Definition item_socials (it : json) : list json :=
  as_list (field (item_candidate it) "social").

Definition item_contacts (it : json) : list json :=
  as_list (field (item_candidate it) "contacts").

(** A social-profile entry whose type marks it as LinkedIn. *)
Definition linkedin_typed (s : json) : bool :=
  match py_or (field s "type") (JStr "") with
  | JStr t => String.eqb (str_lower t) "li" || String.eqb (str_lower t) "linkedin"
  | _ => false
  end.

(** The display link of the rows of [it]: the link of the first
    LinkedIn-typed social entry, the submitted identifier when there is no
    such entry or its link is empty. *)
Definition display_link (it : json) : json :=
  match List.find linkedin_typed (item_socials it) with
  | Some s => py_or (field s "link") (field it "item")
  | None => field it "item"
  end.

(** What the rows flattened from [it] must be: one per contact entry, in
    order, or a single row without contact when there is none; all with the
    item's status, the candidate's uid and name, and the display link. *)
Definition item_rows_ok (it : json) (rows : list row) : Prop :=
  let cs := item_contacts it in
  (cs ≠ [] → length rows = length cs) ∧
  (cs = [] → length rows = 1%nat) ∧
  (∀ (i : nat) (r : row), rows !! i = Some r →
     status r = field it "status" ∧
     uid r = field (item_candidate it) "uid" ∧
     linkedin_url r = display_link it ∧
     match cs !! i with
     | Some c =>
         contact_type r = field c "type" ∧
         contact_value r = field c "value" ∧
         contact_subtype r = py_or (field c "subType") (field c "sub_type")
     | None =>
         contact_type r = JNull ∧ contact_value r = JNull ∧
         contact_subtype r = JNull
     end).

(** The flattening invariant as the specification words it: every payload
    gives at least one row. *)
Definition at_least_one_row (payload : json) : Prop :=
  ∃ r rs, flatten_callback_payload payload = Ok (r :: rs).

(** The display-link rule as the specification words it: when the candidate
    has a LinkedIn-typed social entry with a link, every row of the item shows
    the link of a LinkedIn-typed entry. *)
Definition linkedin_link_when_exists (it : json) : Prop :=
  ∀ rows, flatten_item it = Ok rows →
    (∃ s, s ∈ item_socials it ∧ linkedin_typed s = true ∧
          truthy (field s "link") = true) →
    Forall (λ r, ∃ s, s ∈ item_socials it ∧ linkedin_typed s = true ∧
                      linkedin_url r = field s "link") rows.

(** ** [lib/storage.py]: the correlation index *)

(** [p.read_text().strip() if p.exists() else None] *)
Definition find_batch_by_request (request_id : string) (w : world)
  : option string :=
  str_strip <$> (requests w !! request_id).

(** ** [app.py]: the callback handler *)

(** A delivery: the [Request-Id] header, and what [request.json()] gives. *)
Record request : Type := mk_request {
  header_request_id : option string;
  body : result json
}.

Inductive response : Type :=
| Accepted (warning : option string) (batch_id : option string)
| HTTPException (status_code : Z) (detail : string).

(** The handler of [except Exception as e]: the error is recorded in the
    batch the request id resolves to, an error email is attempted (a failure
    of that email is swallowed), and the delivery is answered with 500. *)
Definition callback_failed (req : request) (e : exn) (w : world)
  : response * world :=
  let req_id := default "" (header_request_id req) in
  let batch_id :=
    if negb (String.eqb req_id "") then find_batch_by_request req_id w
    else None in
  let w' :=
    if truthy_str batch_id then
      let b := default "" batch_id in
      let st := append_error (CallbackError (str_exn e)) (read_status b w) in
      let w1 := write_status b st w in
      if truthy_str (st_email st)
      then send (ErrorEmail (default "" (st_email st)) b (str_exn e)) w1
      else w1
    else w in
  (HTTPException 500 (str_exn e), w').

(** The block [try: ... send_result_email ... except Exception as email_err]
    of [callback]; [st] is the status dict just written, [smtp] is what the
    mail transport does when it is called: [None] delivers, [Some msg] raises. *)
Definition notify_complete (smtp : option string) (b : string)
    (st : batch_status) (w : world) : world :=
  if truthy_str (st_email st) && csv_exists b w then
    let w' := send (ResultEmail (default "" (st_email st)) b
                      (default [] (results_csv (batch_dir b w)))) w in
    match smtp with
    | None => w'
    | Some msg => write_status b (append_error (EmailError msg) st) w'
    end
  else w.

(** The block "Update status: remove pending id, increment received" of
    [callback], with the completion branch that follows it. *)
Definition update_status (smtp : option string) (b request_id : string)
    (w : world) : world :=
  let st := read_status b w in
  let pending := remove_first request_id (default [] (st_pending st)) in
  let st1 := set_st_received (default 0 (st_received st) + 1)
               (set_st_pending pending st) in
  match pending with
  | [] =>
      let st2 := set_st_status "complete" st1 in
      notify_complete smtp b st2 (write_status b st2 w)
  | _ :: _ => write_status b st1 w
  end.

(** [callback] *)
Definition callback (smtp : option string) (req : request) (w : world)
  : response * world :=
  if negb (truthy_str (header_request_id req)) then
    (HTTPException 400 "Missing Request-Id header", w)
  else
    let request_id := default "" (header_request_id req) in
    match body req with
    | Raise e => callback_failed req e w
    | Ok payload =>
        let batch_id := find_batch_by_request request_id w in
        if negb (truthy_str batch_id) then
          (Accepted (Some "unknown request id") None, w)
        else
          let b := default "" batch_id in
          let w1 := append_results_json b request_id payload w in
          match flatten_callback_payload payload with
          | Raise e => callback_failed req e w1
          | Ok rows =>
              (Accepted None (Some b),
               update_status smtp b request_id (append_results_csv b rows w1))
          end
    end.

(** The batch a delivery is attributed to: its token is present and its
    index entry names a batch. *)
Definition resolved_batch (req : request) (w : world) : option string :=
  match header_request_id req with
  | Some rid =>
      if String.eqb rid "" then None
      else match find_batch_by_request rid w with
           | Some b => if String.eqb b "" then None else Some b
           | None => None
           end
  | None => None
  end.

Definition resolves_to (b : string) (req : request) (w : world) : bool :=
  match resolved_batch req w with
  | Some b' => String.eqb b' b
  | None => false
  end.

(** Deliveries handled one after the other. *)
Fixpoint callbacks (ds : list (option string * request)) (w : world) : world :=
  match ds with
  | [] => w
  | (smtp, req) :: ds' => callbacks ds' (snd (callback smtp req w))
  end.

(** *** Traces of deliveries *)

(** How many deliveries of [ds] are attributed to batch [b]. *)
Fixpoint resolved_count (b : string) (ds : list (option string * request))
    (w : world) : Z :=
  match ds with
  | [] => 0
  | (smtp, req) :: ds' =>
      (if resolves_to b req w then 1 else 0)
      + resolved_count b ds' (snd (callback smtp req w))
  end.



(** *** The claims as the specification words them *)

Definition total_items_of (b : string) (w : world) : Z :=
  default 0 (st_total_items (read_status b w)).

(** [received] plus the callback errors stays within [total_items]. *)
Definition received_bounded (b : string) (w : world) : Prop :=
  received_of b w + callback_errors b w ≤ total_items_of b w.


Definition is_accepted (r : response) : Prop :=
  match r with Accepted _ _ => True | HTTPException _ _ => False end.




(** ** [app.py]: the upload handler *)

Inductive upload_response : Type :=
| UploadAccepted (batch_id : string) (submitted errors : nat)
| UploadError (status_code : Z) (detail : string).

(** The status dict [upload] starts from. *)
Definition initial_status (user_email : string) (n_urls : nat) : batch_status :=
  mk_status (Some "processing") (Some user_email) (Some (Z.of_nat n_urls))
    (Some []) (Some 0) (Some []) (Some []).

(** One turn of the loop [for url in urls]: [resp] is what
    [submit_identifier] returned for [url]; [st] is the local [status] dict. *)
Definition upload_step (batch_id : string) (acc : world * batch_status)
    (item : string * submit_result) : world * batch_status :=
  let '(w, st) := acc in
  let '(url, resp) := item in
  let st1 := append_submission
               (mk_submission url (success resp) (request_id resp)
                  (error resp) (diagnostics resp)) st in
  if negb (success resp) then
    (w, append_error (ItemError url (error resp)) st1)
  else if truthy_str (request_id resp) then
    let rid := default "" (request_id resp) in
    (map_request_to_batch rid batch_id w,
     set_st_pending (default [] (st_pending st1) ++ [rid]) st1)
  else (w, st1).

(** The world and the local [status] dict after the loop has run over
    [items]. *)
Definition upload_loop (batch_id : string) (items : list (string * submit_result))
    (acc : world * batch_status) : world * batch_status :=
  fold_left (upload_step batch_id) items acc.

(** [upload]: [now] is the clock reading of [new_batch_id], [content] the
    uploaded file, [items] the URLs parsed from it, each with the answer of
    [submit_identifier]. *)
Definition upload (now : datetime) (content user_email : string)
    (items : list (string * submit_result)) (w : world)
  : upload_response * world :=
  let batch_id := new_batch_id now in
  let w0 := save_original_csv batch_id content w in
  match items with
  | [] => (UploadError 400 "No LinkedIn URLs found in CSV", w0)
  | _ =>
      let '(w1, st) := upload_loop batch_id items
                         (w0, initial_status user_email (length items)) in
      (UploadAccepted batch_id (length (default [] (st_pending st)))
         (length (default [] (st_errors st))),
       write_status batch_id st w1)
  end.

(** The request ids the loop registers, in order. *)
Fixpoint registered_ids (items : list (string * submit_result)) : list string :=
  match items with
  | [] => []
  | (_, resp) :: items' =>
      if success resp && truthy_str (request_id resp)
      then default "" (request_id resp) :: registered_ids items'
      else registered_ids items'
  end.



(** Immutability of an index entry as the specification words it: whatever
    is registered next, the request id still resolves to its first batch. *)
Definition index_entry_immutable (rid b : string) (w : world) : Prop :=
  ∀ rid' b',
    find_batch_by_request rid
      (map_request_to_batch rid' b' (map_request_to_batch rid b w)) = Some b.

End Engine.

(** Uniqueness of batch ids as the specification words it. *)
Definition batch_ids_differ (t1 t2 : datetime) : Prop :=
  t1 ≠ t2 → new_batch_id t1 ≠ new_batch_id t2.

(** ** The writes of the result files that raise *)

(** What the codecs do.  [p.write_text(...)] encodes its text in the encoding
    of the locale and [results.csv] is opened with [encoding="utf-8"]; a text
    holding a character the encoding rejects (a lone surrogate, for UTF-8)
    raises [UnicodeEncodeError].  [locale_encodable] and [utf8_encodable] tell
    the strings that can be encoded; [ledger_error_text] and [row_error_text]
    are the text of the exception raised for a ledger, respectively a row, that
    cannot. *)
Class PyCodec : Type := {
  locale_encodable : string -> bool;
  utf8_encodable : string -> bool;
  ledger_error_text : gmap string json -> string;
  row_error_text : row -> string
}.

(** A string without a surrogate, read as UTF-8 bytes in which a surrogate
    U+D800..U+DFFF is the three bytes [ED A0..BF 80..BF]. *)
Fixpoint no_surrogate (s : string) : bool :=
  match s with
  | EmptyString => true
  | String c s' =>
      match s' with
      | String c' _ =>
          if ((N_of_ascii c =? 237) && (160 <=? N_of_ascii c'))%N then false
          else no_surrogate s'
      | EmptyString => true
      end
  end.

(** The codecs of a UTF-8 locale, used on the concrete inputs below; the
    texts of the exceptions (which name the position of the character) are not
    reproduced. *)
Definition utf8_codec : PyCodec :=
  {| locale_encodable := no_surrogate;
     utf8_encodable := no_surrogate;
     ledger_error_text := λ _, "'utf-8' codec can't encode character: surrogates not allowed";
     row_error_text := λ _, "'utf-8' codec can't encode character: surrogates not allowed" |}.



(** [data.setdefault(request_id, payload)] *)
Definition ledger_setdefault (request_id : string) (payload : json)
    (data : gmap string json) : gmap string json :=
  match data !! request_id with
  | Some _ => data
  | None => <[request_id := payload]> data
  end.

Section EngineIO.

Context `{PyStr} `{PyCodec}.

(** The text [json.dumps(x, ensure_ascii=False)] can be encoded: every string
    of [x], keys included, can (the rest of the text is ASCII). *)
Fixpoint json_encodable (x : json) : bool :=
  match x with
  | JStr s => locale_encodable s
  | JList l => forallb json_encodable l
  | JObj o =>
      (fix members (o : list (string * json)) : bool :=
         match o with
         | [] => true
         | (k, v) :: o' => locale_encodable k && json_encodable v && members o'
         end) o
  | _ => true
  end.

(** [p.write_text(json.dumps(data, ...))] does not raise. *)
Definition ledger_writable (data : gmap string json) : bool :=
  forallb (λ kv, locale_encodable (fst kv) && json_encodable (snd kv))
    (map_to_list data).

(** The cell of a row in [results.csv]: a string is written as it is, any
    other value through [str], which is ASCII for numbers, booleans and [None]
    and escapes what cannot be printed for lists and dicts. *)
Definition cell_writable (c : json) : bool :=
  match c with
  | JStr s => utf8_encodable s
  | _ => true
  end.

(** [w.writerow(r)] does not raise. *)
Definition row_writable (r : row) : bool :=
  cell_writable (uid r) && cell_writable (full_name r) &&
  cell_writable (status r) && cell_writable (linkedin_url r) &&
  cell_writable (contact_type r) && cell_writable (contact_value r) &&
  cell_writable (contact_subtype r).

(** [append_results_json], with the write that raises: [write_text] has
    opened and truncated [results.json] when the encoder raises, so the file
    is left empty, which the next call reads as [{}]. *)
Definition append_results_json_io (batch_id request_id : string) (payload : json)
    (w : world) : world * option exn :=
  let d := batch_dir batch_id w in
  let data := ledger_setdefault request_id payload (default ∅ (results_json d)) in
  if ledger_writable data then
    (set_batch_dir batch_id
       (mk_files (original_csv d) (status_json d) (Some data) (results_csv d)) w,
     None)
  else
    (set_batch_dir batch_id
       (mk_files (original_csv d) (status_json d) (Some ∅) (results_csv d)) w,
     Some (UnicodeEncodeError (ledger_error_text data))).

(** The rows written before the first row that cannot be, and that row. *)
Fixpoint split_rows (rows : list row) : list row * option row :=
  match rows with
  | [] => ([], None)
  | r :: rows' =>
      if row_writable r then
        let '(written, bad) := split_rows rows' in (r :: written, bad)
      else ([], Some r)
  end.

(** [append_results_csv], with the write that raises: the file is opened
    (hence created, with its header), the rows are written one by one, and the
    rows before the one that raises stay in the file. *)
Definition append_results_csv_io (batch_id : string) (rows : list row) (w : world)
  : world * option exn :=
  match rows with
  | [] => (w, None)
  | _ =>
      let d := batch_dir batch_id w in
      let '(written, bad) := split_rows rows in
      (set_batch_dir batch_id
         (mk_files (original_csv d) (status_json d) (results_json d)
            (Some (default [] (results_csv d) ++ written))) w,
       match bad with
       | Some r => Some (UnicodeEncodeError (row_error_text r))
       | None => None
       end)
  end.

(** [callback], with the writes of [results.json] and [results.csv] that
    raise: the exception reaches [except Exception] like any other. *)
Definition callback_io (smtp : option string) (req : request) (w : world)
  : response * world :=
  if negb (truthy_str (header_request_id req)) then
    (HTTPException 400 "Missing Request-Id header", w)
  else
    let request_id := default "" (header_request_id req) in
    match body req with
    | Raise e => callback_failed req e w
    | Ok payload =>
        let batch_id := find_batch_by_request request_id w in
        if negb (truthy_str batch_id) then
          (Accepted (Some "unknown request id") None, w)
        else
          let b := default "" batch_id in
          match append_results_json_io b request_id payload w with
          | (w1, Some e) => callback_failed req e w1
          | (w1, None) =>
              match flatten_callback_payload payload with
              | Raise e => callback_failed req e w1
              | Ok rows =>
                  match append_results_csv_io b rows w1 with
                  | (w2, Some e) => callback_failed req e w2
                  | (w2, None) =>
                      (Accepted None (Some b), update_status smtp b request_id w2)
                  end
              end
          end
    end.

Fixpoint callbacks_io (ds : list (option string * request)) (w : world) : world :=
  match ds with
  | [] => w
  | (smtp, req) :: ds' => callbacks_io ds' (snd (callback_io smtp req w))
  end.

(** The result files of the delivery can be written: the ledger with the
    payload recorded, and the rows flattened from the payload. *)
Definition delivery_writable (req : request) (w : world) : bool :=
  match resolved_batch req w, body req with
  | Some b, Ok payload =>
      ledger_writable
        (ledger_setdefault (default "" (header_request_id req)) payload
           (ledger_of b w)) &&
      match flatten_callback_payload payload with
      | Ok rows => forallb row_writable rows
      | Raise _ => true
      end
  | _, _ => true
  end.

Fixpoint deliveries_writable (ds : list (option string * request)) (w : world)
  : bool :=
  match ds with
  | [] => true
  | (smtp, req) :: ds' =>
      delivery_writable req w &&
      deliveries_writable ds' (snd (callback_io smtp req w))
  end.

(** Idempotent redelivery as the specification words it: a second delivery of
    the same callback changes neither [received] nor the result table, and both
    deliveries are accepted. *)
Definition redelivery_idempotent (smtp : option string) (req : request)
    (b : string) (w : world) : Prop :=
  let w1 := snd (callback_io smtp req w) in
  let w2 := snd (callback_io smtp req w1) in
  received_of b w2 = received_of b w1 ∧
  table_of b w2 = table_of b w1 ∧
  is_accepted (fst (callback_io smtp req w)) ∧
  is_accepted (fst (callback_io smtp req w1)).

End EngineIO.

(** ** [app.py]: the query handlers *)

(** What a query answers: the value, or [HTTPException(404, detail)]. *)
Inductive query_response (A : Type) : Type :=
| Found (a : A)
| NotFound (detail : string).
Arguments Found {A} a.
Arguments NotFound {A} detail.

(** [not st] for a status dict: it has no key. *)
Definition status_is_empty (st : batch_status) : bool :=
  match st with
  | mk_status None None None None None None None => true
  | _ => false
  end.


(** The handler [download] of [GET /download/{batch_id}]: the rows of
    [results.csv]. *)
Definition download (batch_id : string) (w : world)
  : query_response (list row) :=
  match results_csv (batch_dir batch_id w) with
  | Some rows => Found rows
  | None => NotFound "results.csv not found for batch"
  end.

(** *** What the upload loop leaves in the status *)

(** The entries the loop appends to ["errors"] and to ["submissions"]. *)
Fixpoint failed_items (items : list (string * submit_result))
  : list error_entry :=
  match items with
  | [] => []
  | (url, resp) :: items' =>
      if success resp then failed_items items'
      else ItemError url (error resp) :: failed_items items'
  end.

Definition submissions_of (items : list (string * submit_result))
  : list submission :=
  map (λ item, mk_submission (fst item) (success (snd item))
                 (request_id (snd item)) (error (snd item))
                 (diagnostics (snd item))) items.

(** ** [services/signalhire_client.py] *)

(** What the POST to the provider does: it times out, fails with another
    exception, or answers.  [data] is the decoded body ([resp.json()], or the
    [{"raw": ...}] dict built when the body is not JSON); [headers] are the
    pairs of [resp.headers.items()], one per header name, names in lower
    case. *)
Inductive http_outcome : Type :=
| HttpTimeout
| HttpFailure (msg : string)
| HttpResponse (status_code : Z) (data : json) (headers : list (string * string)).

(** The dict [submit_identifier] returns; an absent key is [None]. *)
Record submit_dict : Type := mk_submit_dict {
  sd_success : bool;
  sd_request_id : option json;
  sd_error : option json;
  sd_diagnostics : option json
}.

(** [resp.headers.get(name)], for [name] given in lower case (the lookup of
    header names ignores case). *)
Fixpoint header_get (name : string) (headers : list (string * string))
  : option string :=
  match headers with
  | [] => None
  | (k, v) :: headers' =>
      if String.eqb name k then Some v else header_get name headers'
  end.

Definition opt_str (o : option string) : json :=
  match o with
  | Some s => JStr s
  | None => JNull
  end.

Section Client.

Context `{PyStr}.

(** [{k: v for k, v in resp.headers.items()
      if k.lower() in {"content-type", "request-id"}}] *)
Definition safe_headers (headers : list (string * string)) : json :=
  JObj (map (λ kv, (fst kv, JStr (snd kv)))
          (List.filter
             (λ kv, String.eqb (str_lower (fst kv)) "content-type"
                    || String.eqb (str_lower (fst kv)) "request-id")
             headers)).

Definition diagnostics_of (status_code : Z) (data : json)
    (headers : list (string * string)) : json :=
  JObj [("status_code", JInt status_code);
        ("headers", safe_headers headers);
        ("body", data)].

(** The body of the [try] once the provider has answered. *)
Definition submit_response (status_code : Z) (data : json)
    (headers : list (string * string)) : result submit_dict :=
  if (200 <=? status_code) && (status_code <? 300) then
    r1 ← py_get data "request_id";
    r2 ← py_get data "Request-Id";
    r3 ← py_get data "requestId";
    r4 ← py_get data "id";
    let h := opt_str (header_get "request-id" headers) in
    let rid := py_or r1 (py_or r2 (py_or r3 (py_or r4 (py_or h h)))) in
    if negb (truthy rid) then
      Ok (mk_submit_dict false None
            (Some (JStr "No request_id returned by SignalHire"))
            (Some (diagnostics_of status_code data headers)))
    else
      Ok (mk_submit_dict true (Some rid) None
            (Some (diagnostics_of status_code data headers)))
  else
    e ← py_get data "error";
    Ok (mk_submit_dict false None
          (Some (py_or e (JStr ("HTTP " +:+ pretty status_code))))
          (Some (diagnostics_of status_code data headers))).

(** [submit_identifier]; [api_key] is [API_KEY]. *)
Definition submit_identifier (api_key : option string) (outcome : http_outcome)
  : submit_dict :=
  if negb (truthy_str api_key) then
    mk_submit_dict false None (Some (JStr "Missing SIGNALHIRE_API_KEY")) None
  else
    match outcome with
    | HttpTimeout =>
        mk_submit_dict false None
          (Some (JStr "Timeout contacting SignalHire API")) None
    | HttpFailure msg => mk_submit_dict false None (Some (JStr msg)) None
    | HttpResponse status_code data headers =>
        match submit_response status_code data headers with
        | Ok r => r
        | Raise e => mk_submit_dict false None (Some (JStr (str_exn e))) None
        end
    end.

End Client.

(** A character between ['0'] and ['9']. *)
Definition is_decimal_digit (c : ascii) : bool :=
  ((48 <=? N_of_ascii c) && (N_of_ascii c <=? 57))%N.

(** ** Concrete inputs *)

(** A candidate whose first LinkedIn-typed social entry carries no link and
    whose second one does. *)
Definition item_two_socials : json :=
  JObj [("status", JStr "success");
        ("item", JStr "https://www.linkedin.com/in/jane");
        ("candidate",
         JObj [("uid", JStr "u1"); ("fullName", JStr "Jane Doe");
               ("social",
                JList [JObj [("type", JStr "li")];
                       JObj [("type", JStr "linkedin");
                             ("link", JStr "https://www.linkedin.com/in/jane-doe")]])])].

(** An item with two contacts and a LinkedIn link. *)
Definition item_two_contacts : json :=
  JObj [("status", JStr "success");
        ("item", JStr "https://www.linkedin.com/in/john");
        ("candidate",
         JObj [("uid", JStr "u2"); ("fullName", JStr "John Roe");
               ("social",
                JList [JObj [("type", JStr "fb"); ("link", JStr "https://fb.example/john")];
                       JObj [("type", JStr "LI");
                             ("link", JStr "https://www.linkedin.com/in/john-roe")]]);
               ("contacts",
                JList [JObj [("type", JStr "email"); ("value", JStr "john@example.com");
                             ("subType", JStr "work")];
                       JObj [("type", JStr "phone"); ("value", JStr "+1 555 0100")]])])].

Definition empty_world : world := mk_world ∅ ∅ [].

(** Two clock readings one minute apart. *)
Definition t_upload : datetime := mk_datetime 2024 3 5 10 15 7 123.
Definition t_minute_later : datetime := mk_datetime 2024 3 5 10 16 7 123.

Definition url_john : string := "https://www.linkedin.com/in/john".

Definition submitted (rid : string) : submit_result :=
  mk_submit_result true (Some rid) None (Some (JObj [("status_code", JInt 200)])).

(** A batch of one URL, submitted with success under request id [req-1]. *)
Definition one_item : list (string * submit_result) :=
  [(url_john, submitted "req-1")].

Definition w_uploaded : world :=
  snd (upload t_upload url_john "user@example.com" one_item empty_world).

(** The callback of [req-1], a delivery with a body that does not parse, and
    a delivery with a token nobody registered. *)
Definition delivery_john : request :=
  mk_request (Some "req-1") (Ok (JList [item_two_contacts])).




(** The callback of [req-1] with a full name that is the lone surrogate
    U+D800. *)
Definition delivery_surrogate : request :=
  mk_request (Some "req-1")
    (Ok (JList [JObj [("item", JStr "https://www.linkedin.com/in/john");
                      ("candidate",
                       JObj [("fullName",
                              JStr (String (ascii_of_N 237)
                                      (String (ascii_of_N 160)
                                         (String (ascii_of_N 128) EmptyString))))])]])).


Definition rows_john : list row :=
  [mk_row (JStr "u2") (JStr "John Roe") (JStr "success")
     (JStr "https://www.linkedin.com/in/john-roe")
     (JStr "email") (JStr "john@example.com") (JStr "work");
   mk_row (JStr "u2") (JStr "John Roe") (JStr "success")
     (JStr "https://www.linkedin.com/in/john-roe")
     (JStr "phone") (JStr "+1 555 0100") JNull].

(** The uploaded batch after the callback of [req-1] was handled once. *)
Definition w_delivered_once : world :=
  snd (callback (H := ascii_pystr) None delivery_john w_uploaded).

(** Deliveries for [req-1] with nothing to flatten, and with a payload that
    is not a list of objects. *)
Definition delivery_empty : request :=
  mk_request (Some "req-1") (Ok (JList [])).

Definition delivery_bad : request :=
  mk_request (Some "req-1") (Ok (JList [JInt 1])).

(** The index holds [req-1] and no status was written yet. *)
Definition w_registered : world :=
  map_request_to_batch "req-1" "07000123" empty_world.

(** Two URLs: one submitted, one timed out. *)
Definition two_items : list (string * submit_result) :=
  [(url_john, submitted "req-1");
   ("https://www.linkedin.com/in/jane",
    mk_submit_result false None (Some "Timeout contacting SignalHire API") None)].

(** * Properties *)

Section Flattening.

Context `{PyStr}.

Lemma py_get_obj (o : list (string * json)) (k : string) :
  py_get (JObj o) k = Ok (field (JObj o) k).
Proof. reflexivity. Qed.

Lemma is_obj_inv (x : json) : is_obj x = true → ∃ o, x = JObj o.
Proof. destruct x; simpl; try discriminate. eauto. Qed.

(** An optional array of the expected shape is iterated as its entries. *)
Lemma wf_array_iter (f : json → bool) (x : json) :
  wf_array f x = true →
  py_iter (py_or x (JList [])) = Ok (as_list x) ∧
  forallb f (as_list x) = true ∧
  truthy (py_or x (JList [])) = match as_list x with [] => false | _ => true end.
Proof.
  unfold wf_array, py_or. destruct (truthy x) eqn:Ht.
  - destruct x; try discriminate. intros Hf. simpl in *.
    destruct l; [discriminate|]. auto.
  - intros _. destruct x; simpl in *; try discriminate; auto.
    destruct l; [auto | discriminate].
Qed.

Lemma is_linkedin_wf (s : json) :
  wf_social s = true → is_linkedin s = Ok (linkedin_typed s).
Proof.
  unfold wf_social. intros [Ho Ht]%andb_prop.
  apply is_obj_inv in Ho as [o ->].
  unfold is_linkedin, linkedin_typed. rewrite py_get_obj.
  cbn [mbind result_bind].
  destruct (py_or (field (JObj o) "type") (JStr "")); try discriminate.
  reflexivity.
Qed.

(** On entries of the expected shape the loop over [socials] returns the
    link of the first LinkedIn-typed entry. *)
Lemma find_linkedin_wf (socials : list json) :
  forallb wf_social socials = true →
  find_linkedin socials =
    Ok (match List.find linkedin_typed socials with
        | Some s => field s "link"
        | None => JNull
        end).
Proof.
  induction socials as [|s rest IH]; [reflexivity|].
  simpl forallb. intros [Hs Hrest]%andb_prop.
  cbn [find_linkedin List.find]. rewrite (is_linkedin_wf s Hs).
  unfold mbind, result_bind.
  destruct (linkedin_typed s).
  - unfold wf_social in Hs. apply andb_prop in Hs as [Ho _].
    apply is_obj_inv in Ho as [o ->]. reflexivity.
  - apply IH, Hrest.
Qed.

Definition contact_row_of (uid0 full_name0 status0 link c : json) : row :=
  mk_row uid0 full_name0 status0 link (field c "type") (field c "value")
    (py_or (field c "subType") (field c "sub_type")).

Lemma mapM_contact_rows (uid0 full_name0 status0 link : json) (cs : list json) :
  forallb is_obj cs = true →
  mapM (contact_row uid0 full_name0 status0 link) cs =
    Ok (map (contact_row_of uid0 full_name0 status0 link) cs).
Proof.
  induction cs as [|c cs IH]; [reflexivity|].
  simpl forallb. intros [Hc Hcs]%andb_prop.
  apply is_obj_inv in Hc as [o ->].
  cbn [mapM map]. rewrite (IH Hcs). reflexivity.
Qed.

(** The rows of one item of the expected shape, in closed form. *)
Lemma flatten_item_wf (it : json) :
  wf_item it = true →
  flatten_item it =
    Ok (let cand := item_candidate it in
        let r := contact_row_of (field cand "uid")
                   (py_or (field cand "fullName") (field cand "full_name"))
                   (field it "status") (display_link it) in
        match item_contacts it with
        | [] => [mk_row (field cand "uid")
                   (py_or (field cand "fullName") (field cand "full_name"))
                   (field it "status") (display_link it) JNull JNull JNull]
        | cs => map r cs
        end).
Proof.
  unfold wf_item. intros [[[Ho Hc]%andb_prop Hs]%andb_prop Hk]%andb_prop.
  apply is_obj_inv in Ho as [o ->].
  unfold flatten_item, display_link in *. unfold item_contacts, item_socials in *.
  destruct (is_obj_inv _ Hc) as [c Ec].
  unfold item_candidate in *.
  rewrite !py_get_obj. cbn [mbind result_bind].
  rewrite Ec in *.
  apply wf_array_iter in Hs as (Hsi & Hsf & _).
  apply wf_array_iter in Hk as (Hki & Hkf & Hkt).
  rewrite !py_get_obj. cbn [mbind result_bind].
  rewrite Hsi. cbn [mbind result_bind].
  rewrite (find_linkedin_wf _ Hsf). cbn [mbind result_bind].
  rewrite Hkt.
  destruct (as_list (field (JObj c) "contacts")) as [|k ks] eqn:Ek.
  - destruct (List.find linkedin_typed _); reflexivity.
  - rewrite Hki. cbn [mbind result_bind].
    rewrite (mapM_contact_rows _ _ _ _ _ Hkf).
    destruct (List.find linkedin_typed _); reflexivity.
Qed.

Lemma flatten_item_rows_ok (it : json) :
  wf_item it = true →
  ∃ rows, flatten_item it = Ok rows ∧ item_rows_ok it rows.
Proof.
  intros Hwf. rewrite (flatten_item_wf it Hwf). eexists; split; [reflexivity|].
  unfold item_rows_ok. cbv zeta.
  destruct (item_contacts it) as [|k ks] eqn:Ek.
  - split; [congruence|]. split; [reflexivity|].
    intros [|i] r Hr; [|destruct i; discriminate].
    injection Hr as <-. simpl. repeat split.
  - split; [intros _; apply length_map|]. split; [discriminate|].
    intros i r Hr. rewrite list_lookup_fmap in Hr.
    destruct ((k :: ks) !! i) as [c|]; [|discriminate].
    injection Hr as <-. simpl. repeat split.
Qed.

Lemma mapM_flatten_items (items : list json) :
  forallb wf_item items = true →
  ∃ rss, mapM flatten_item items = Ok rss ∧
         Forall2 (λ it rows, flatten_item it = Ok rows ∧ item_rows_ok it rows)
           items rss.
Proof.
  induction items as [|it items IH]; simpl forallb.
  - intros _. exists []. split; [reflexivity | constructor].
  - intros [Hit Hitems]%andb_prop.
    destruct (flatten_item_rows_ok it Hit) as (rows & Hrows & Hok).
    destruct (IH Hitems) as (rss & Hrss & Hall).
    exists (rows :: rss). split.
    + cbn [mapM]. rewrite Hrows, Hrss. reflexivity.
    + constructor; auto.
Qed.

End Flattening.

Section FlatteningClaims.

Context `{PyStr}.

Lemma item_rows_ok_nonempty (it : json) (rows : list row) :
  item_rows_ok it rows → (1 ≤ length rows)%nat.
Proof.
  intros (Hn & Hz & _). destruct (item_contacts it) as [|c cs] eqn:E.
  - rewrite Hz; [lia | reflexivity].
  - rewrite Hn; [simpl; lia | discriminate].
Qed.

Lemma concat_at_least (items : list json) (rss : list (list row)) :
  Forall2 item_rows_ok items rss → (length items ≤ length (concat rss))%nat.
Proof.
  induction 1 as [|it rows items rss Hok _ IH]; [reflexivity|].
  simpl. rewrite length_app. apply item_rows_ok_nonempty in Hok. lia.
Qed.

Lemma payload_items_nonempty (p : json) :
  truthy p = true → (1 ≤ length (payload_items p))%nat.
Proof.
  destruct p; simpl; try lia. destruct l; [discriminate | simpl; lia].
Qed.

(** Flattening a non-empty payload of the expected shape: the rows are those
    of its items, item after item. *)
Lemma flatten_payload_wf (p : json) :
  truthy p = true → wf_payload p = true →
  ∃ rss, flatten_callback_payload p = Ok (concat rss) ∧
         Forall2 item_rows_ok (payload_items p) rss.
Proof.
  intros Ht Hwf. unfold flatten_callback_payload, flatten_items. rewrite Ht.
  destruct (mapM_flatten_items _ Hwf) as (rss & Hrss & Hall).
  exists rss. cbn [negb]. rewrite Hrss. split; [reflexivity|].
  eapply Forall2_impl; [exact Hall|]. intros it rows [_ Hok]. exact Hok.
Qed.

(** C7 (amended): every non-empty callback payload of the expected shape is
    flattened into at least one row, and into at least one row per item, also
    for items without any contact. *)
Theorem C7_nonempty_payload_at_least_one_row (p : json) :
  truthy p = true → wf_payload p = true →
  ∃ r rs, flatten_callback_payload p = Ok (r :: rs) ∧
          (length (payload_items p) ≤ length (r :: rs))%nat.
Proof.
  intros Ht Hwf. destruct (flatten_payload_wf p Ht Hwf) as (rss & Hf & Hall).
  pose proof (concat_at_least _ _ Hall) as Hlen.
  pose proof (payload_items_nonempty p Ht) as Hne.
  destruct (concat rss) as [|r rs] eqn:E; [simpl in Hlen; lia|].
  exists r, rs. split; [exact Hf | exact Hlen].
Qed.

(** C8 (amended): for every item of a non-empty payload of the expected shape,
    flattening produces one row per contact entry, in order, or exactly one row
    with null contact fields when the candidate has no contact; every row shows
    the link of the first LinkedIn-typed social entry when that link is not
    empty, and the submitted identifier otherwise. *)
Theorem C8_rows_per_item (p : json) :
  truthy p = true → wf_payload p = true →
  ∃ rss, flatten_callback_payload p = Ok (concat rss) ∧
         Forall2 (λ it rows,
                    flatten_item it = Ok rows ∧ item_rows_ok it rows ∧
                    Forall (λ r, linkedin_url r =
                              match List.find linkedin_typed (item_socials it) with
                              | Some s => if truthy (field s "link")
                                          then field s "link" else field it "item"
                              | None => field it "item"
                              end) rows)
           (payload_items p) rss.
Proof.
  intros Ht Hwf. unfold flatten_callback_payload, flatten_items. rewrite Ht.
  destruct (mapM_flatten_items _ Hwf) as (rss & Hrss & Hall).
  exists rss. cbn [negb]. rewrite Hrss. split; [reflexivity|].
  eapply Forall2_impl; [exact Hall|]. intros it rows [Hf Hok].
  split; [exact Hf|]. split; [exact Hok|].
  apply Forall_lookup. intros i r Hr.
  destruct Hok as (_ & _ & Hrow). destruct (Hrow i r Hr) as (_ & _ & Hl & _).
  rewrite Hl. unfold display_link, py_or. reflexivity.
Qed.

End FlatteningClaims.

Section BatchId.

Lemma append_cons (x : ascii) (a b : string) :
  String x a +:+ b = String x (a +:+ b).
Proof. reflexivity. Qed.

Lemma append_assoc (a b c : string) : (a +:+ b) +:+ c = a +:+ (b +:+ c).
Proof.
  induction a as [|x a IH]; [reflexivity|]. rewrite !append_cons. by f_equal.
Qed.

Lemma length_append (a b : string) :
  String.length (a +:+ b) = (String.length a + String.length b)%nat.
Proof.
  induction a as [|x a IH]; [reflexivity|]. rewrite append_cons. cbn. by f_equal.
Qed.

Lemma substring_all (s : string) : String.substring 0 (String.length s) s = s.
Proof. induction s as [|x s IH]; cbn; [reflexivity | by f_equal]. Qed.

Lemma substring_append (a b : string) :
  String.substring (String.length a) (String.length b) (a +:+ b) = b.
Proof.
  induction a as [|x a IH]; [apply substring_all|]. rewrite append_cons. exact IH.
Qed.

Lemma last_chars_append (a b : string) :
  last_chars (String.length b) (a +:+ b) = b.
Proof.
  unfold last_chars. rewrite length_append.
  replace (String.length a + String.length b - String.length b)%nat
    with (String.length a) by lia.
  apply substring_append.
Qed.

Lemma length_digits (w : nat) (n : N) : String.length (digits w n) = w.
Proof.
  revert n. induction w as [|w IH]; intros n; cbn [digits]; [reflexivity|].
  rewrite length_append, IH. cbn. lia.
Qed.

Lemma append_inj_length (a a' b b' : string) :
  String.length a = String.length a' →
  a +:+ b = a' +:+ b' → a = a' ∧ b = b'.
Proof.
  revert a'. induction a as [|x a IH]; intros [|x' a']; try discriminate.
  - auto.
  - rewrite !append_cons. cbn [String.length].
    intros [= Hl] [= -> Happ]. destruct (IH a' Hl Happ) as [-> ->]. auto.
Qed.

Lemma digit_inj (a b : N) : (a < 10)%N → (b < 10)%N → digit a = digit b → a = b.
Proof.
  unfold digit. intros Ha Hb Heq.
  assert (Hn : N_of_ascii (ascii_of_N (48 + a)) = N_of_ascii (ascii_of_N (48 + b)))
    by (by rewrite Heq).
  rewrite !N_ascii_embedding in Hn by lia. lia.
Qed.

Lemma digits_inj (w : nat) (n m : N) :
  (n < 10 ^ N.of_nat w)%N → (m < 10 ^ N.of_nat w)%N →
  digits w n = digits w m → n = m.
Proof.
  revert n m. induction w as [|w IH]; intros n m Hn Hm.
  - cbn in Hn, Hm. lia.
  - rewrite Nat2N.inj_succ, N.pow_succ_r' in Hn, Hm. cbn [digits]. intros Heq.
    apply append_inj_length in Heq as [Hhi Hlo];
      [|by rewrite !length_digits].
    injection Hlo as Hlo.
    apply digit_inj in Hlo; [|by apply N.mod_lt|by apply N.mod_lt].
    apply IH in Hhi; [| apply N.Div0.div_lt_upper_bound; lia
                      | apply N.Div0.div_lt_upper_bound; lia].
    rewrite (N.div_mod n 10), (N.div_mod m 10) by lia. congruence.
Qed.

(** The id is the two digits of the second followed by the six digits of the
    microsecond. *)
Lemma new_batch_id_digits (t : datetime) :
  new_batch_id t = digits 2 (second t) +:+ digits 6 (microsecond t).
Proof.
  unfold new_batch_id, strftime.
  rewrite <- !append_assoc.
  rewrite (append_assoc _ (digits 2 (second t)) (digits 6 (microsecond t))).
  replace 8%nat with
    (String.length (digits 2 (second t) +:+ digits 6 (microsecond t)))
    by (by rewrite length_append, !length_digits).
  apply last_chars_append.
Qed.

(** C10 (amended): the batch id is made of the second and the microsecond of
    the creation time only, so two creations get different ids exactly when
    their clock readings differ in the second or in the microsecond; readings a
    whole number of minutes apart get the same id. *)
Theorem C10_batch_id_second_microsecond (t1 t2 : datetime) :
  valid_datetime t1 → valid_datetime t2 →
  (new_batch_id t1 = new_batch_id t2 ↔
   second t1 = second t2 ∧ microsecond t1 = microsecond t2).
Proof.
  intros [Hs1 Hu1] [Hs2 Hu2]. rewrite !new_batch_id_digits. split.
  - intros Heq. apply append_inj_length in Heq as [Hs Hu];
      [|by rewrite !length_digits].
    split; (eapply digits_inj; [| |eassumption]); cbn; lia.
  - intros [-> ->]. reflexivity.
Qed.

End BatchId.

Section Storage.

Context `{PyStr}.

Lemma batch_dir_set (b b' : string) (d : batch_files) (w : world) :
  batch_dir b' (set_batch_dir b d w) = if decide (b = b') then d else batch_dir b' w.
Proof.
  unfold batch_dir, set_batch_dir. cbn [batches]. rewrite lookup_insert.
  case_decide; reflexivity.
Qed.

Lemma batch_dir_set_eq (b : string) (d : batch_files) (w : world) :
  batch_dir b (set_batch_dir b d w) = d.
Proof. rewrite batch_dir_set. case_decide; [reflexivity | congruence]. Qed.

Lemma batch_dir_set_ne (b b' : string) (d : batch_files) (w : world) :
  b ≠ b' → batch_dir b' (set_batch_dir b d w) = batch_dir b' w.
Proof. intros. rewrite batch_dir_set. case_decide; [congruence | reflexivity]. Qed.

Lemma batch_dir_send (b : string) (m : mail) (w : world) :
  batch_dir b (send m w) = batch_dir b w.
Proof. reflexivity. Qed.

Lemma batch_dir_write_status_eq (b : string) (st : batch_status) (w : world) :
  batch_dir b (write_status b st w) =
    mk_files (original_csv (batch_dir b w)) (Some st)
      (results_json (batch_dir b w)) (results_csv (batch_dir b w)).
Proof. apply batch_dir_set_eq. Qed.

Lemma batch_dir_write_status_ne (b b' : string) (st : batch_status) (w : world) :
  b ≠ b' → batch_dir b' (write_status b st w) = batch_dir b' w.
Proof. apply batch_dir_set_ne. Qed.

Lemma batch_dir_append_json_eq (b rid : string) (p : json) (w : world) :
  batch_dir b (append_results_json b rid p w) =
    mk_files (original_csv (batch_dir b w)) (status_json (batch_dir b w))
      (Some (match ledger_of b w !! rid with
             | Some _ => ledger_of b w
             | None => <[rid := p]> (ledger_of b w)
             end))
      (results_csv (batch_dir b w)).
Proof. apply batch_dir_set_eq. Qed.

Lemma batch_dir_append_json_ne (b b' rid : string) (p : json) (w : world) :
  b ≠ b' → batch_dir b' (append_results_json b rid p w) = batch_dir b' w.
Proof. apply batch_dir_set_ne. Qed.

Lemma batch_dir_append_csv_ne (b b' : string) (rows : list row) (w : world) :
  b ≠ b' → batch_dir b' (append_results_csv b rows w) = batch_dir b' w.
Proof.
  intros. destruct rows; [reflexivity|]. by apply batch_dir_set_ne.
Qed.

Lemma append_csv_fields (b : string) (rows : list row) (w : world) :
  let d := batch_dir b w in
  let d' := batch_dir b (append_results_csv b rows w) in
  original_csv d' = original_csv d ∧ status_json d' = status_json d ∧
  results_json d' = results_json d ∧
  default [] (results_csv d') = default [] (results_csv d) ++ rows.
Proof.
  destruct rows as [|r rows]; cbn zeta.
  - cbn [append_results_csv]. rewrite app_nil_r. auto.
  - unfold append_results_csv. rewrite batch_dir_set_eq. cbn. auto.
Qed.

Lemma requests_append_csv (b : string) (rows : list row) (w : world) :
  requests (append_results_csv b rows w) = requests w.
Proof. destruct rows; reflexivity. Qed.

Lemma sent_append_csv (b : string) (rows : list row) (w : world) :
  sent (append_results_csv b rows w) = sent w.
Proof. destruct rows; reflexivity. Qed.

Lemma find_batch_requests (rid : string) (w w' : world) :
  requests w' = requests w →
  find_batch_by_request rid w' = find_batch_by_request rid w.
Proof. unfold find_batch_by_request. by intros ->. Qed.

Lemma truthy_str_some (s : string) : s ≠ "" → truthy_str (Some s) = true.
Proof.
  intros Hs. cbn. destruct (String.eqb_spec s ""); [contradiction | reflexivity].
Qed.

Lemma truthy_str_inv (o : option string) :
  truthy_str o = true → ∃ s, o = Some s ∧ s ≠ "".
Proof.
  destruct o as [s|]; [|discriminate]. cbn.
  destruct (String.eqb_spec s ""); [discriminate|]. eauto.
Qed.

Lemma set_batch_dir_twice (b : string) (d1 d2 : batch_files) (w : world) :
  set_batch_dir b d2 (set_batch_dir b d1 w) = set_batch_dir b d2 w.
Proof. unfold set_batch_dir. cbn. by rewrite insert_insert_eq. Qed.

End Storage.

Section Callback.

Context `{PyStr}.

Lemma callback_errors_app (l : list error_entry) (e : error_entry) :
  length (List.filter is_callback_error (l ++ [e])) =
    (length (List.filter is_callback_error l)
     + if is_callback_error e then 1 else 0)%nat.
Proof.
  rewrite List.filter_app, length_app. cbn [List.filter].
  destruct (is_callback_error e); reflexivity.
Qed.

Lemma read_status_write_status (b : string) (st : batch_status) (w : world) :
  read_status b (write_status b st w) = st.
Proof. unfold read_status. by rewrite batch_dir_write_status_eq. Qed.

(** The effect of [notify_complete] on a world whose status of [b] is [st]. *)
Lemma notify_complete_effect (smtp : option string) (b : string)
    (st : batch_status) (w : world) :
  read_status b w = st →
  let w' := notify_complete smtp b st w in
  requests w' = requests w ∧
  (∀ b', b ≠ b' → batch_dir b' w' = batch_dir b' w) ∧
  results_json (batch_dir b w') = results_json (batch_dir b w) ∧
  results_csv (batch_dir b w') = results_csv (batch_dir b w) ∧
  st_status (read_status b w') = st_status st ∧
  st_pending (read_status b w') = st_pending st ∧
  st_received (read_status b w') = st_received st ∧
  st_total_items (read_status b w') = st_total_items st ∧
  callback_errors b w' = callback_errors b w ∧
  ∃ mails, sent w' = sent w ++ mails ∧ (length mails ≤ 1)%nat ∧
    ∀ m, m ∈ mails → ∃ to_addr att, m = ResultEmail to_addr b att.
Proof.
  intros Hst. unfold notify_complete.
  destruct (truthy_str (st_email st) && csv_exists b w).
  - destruct smtp as [msg|]; cbn zeta.
    + split; [reflexivity|]. split.
      { intros b' Hne. by rewrite batch_dir_write_status_ne. }
      rewrite batch_dir_write_status_eq, read_status_write_status.
      unfold callback_errors, errors_of. rewrite read_status_write_status.
      rewrite Hst. cbn. rewrite callback_errors_app. cbn.
      repeat split; try reflexivity; try (f_equal; lia).
      eexists [_]. split; [reflexivity|]. split; [simpl; lia|].
      intros m ->%list_elem_of_singleton. eauto.
    + unfold callback_errors, errors_of, read_status in *.
      rewrite !batch_dir_send. rewrite Hst.
      repeat split; try reflexivity.
      eexists [_]. split; [reflexivity|]. split; [simpl; lia|].
      intros m ->%list_elem_of_singleton. eauto.
  - cbn zeta. rewrite Hst. repeat split; try reflexivity.
    exists []. rewrite app_nil_r. split; [reflexivity|]. split; [simpl; lia|].
    intros m Hm. inversion Hm.
Qed.

(** The effect of the status update of a resolved delivery. *)
Lemma update_status_effect (smtp : option string) (b rid : string) (w : world) :
  let w' := update_status smtp b rid w in
  requests w' = requests w ∧
  (∀ b', b ≠ b' → batch_dir b' w' = batch_dir b' w) ∧
  results_json (batch_dir b w') = results_json (batch_dir b w) ∧
  results_csv (batch_dir b w') = results_csv (batch_dir b w) ∧
  pending_of b w' = remove_first rid (pending_of b w) ∧
  received_of b w' = received_of b w + 1 ∧
  st_total_items (read_status b w') = st_total_items (read_status b w) ∧
  callback_errors b w' = callback_errors b w ∧
  is_complete b w' =
    (is_complete b w ||
     match remove_first rid (pending_of b w) with [] => true | _ => false end) ∧
  ∃ mails, sent w' = sent w ++ mails ∧ (length mails ≤ 1)%nat ∧
    ∀ m, m ∈ mails →
      (∃ to_addr att, m = ResultEmail to_addr b att) ∧
      pending_of b w' = [] ∧ is_complete b w' = true.
Proof.
  unfold update_status. fold (pending_of b w). fold (received_of b w).
  destruct (remove_first rid (pending_of b w)) as [|q qs] eqn:Hpend; cbn zeta.
  - set (st2 := set_st_status "complete" _).
    destruct (notify_complete_effect smtp b st2 (write_status b st2 w))
      as (Hr & Hne & Hj & Hc & Hs & Hp & Hrc & Ht & Hce & mails & Hm & Hlen & Hres).
    { apply read_status_write_status. }
    unfold pending_of, received_of, is_complete.
    rewrite Hr, Hj, Hc, Hs, Hp, Hrc, Ht, Hce.
    rewrite batch_dir_write_status_eq.
    unfold callback_errors, errors_of. rewrite read_status_write_status.
    split; [reflexivity|]. split.
    { intros b' Hb'. rewrite Hne by done. by rewrite batch_dir_write_status_ne. }
    cbn. rewrite orb_true_r. repeat split; try reflexivity.
    exists mails. split; [exact Hm|]. split; [exact Hlen|].
    intros m Hin. split; [by apply Hres|]. split; reflexivity.
  - unfold pending_of, received_of, is_complete, callback_errors, errors_of.
    rewrite read_status_write_status, batch_dir_write_status_eq. cbn.
    rewrite orb_false_r.
    split; [reflexivity|]. split.
    { intros b' Hb'. by rewrite batch_dir_write_status_ne. }
    repeat split; try reflexivity.
    exists []. rewrite app_nil_r. split; [reflexivity|]. split; [simpl; lia|].
    intros m Hm. inversion Hm.
Qed.

(** What a delivery does when its token resolves to batch [b] and its payload
    is flattened into [rows]. *)
Lemma callback_resolved (smtp : option string) (req : request) (w : world)
    (rid b : string) (payload : json) (rows : list row) :
  header_request_id req = Some rid → rid ≠ "" →
  body req = Ok payload →
  find_batch_by_request rid w = Some b → b ≠ "" →
  flatten_callback_payload payload = Ok rows →
  ∃ w', callback smtp req w = (Accepted None (Some b), w') ∧
    requests w' = requests w ∧
    (∀ b', b ≠ b' → batch_dir b' w' = batch_dir b' w) ∧
    ledger_of b w' = match ledger_of b w !! rid with
                     | Some _ => ledger_of b w
                     | None => <[rid := payload]> (ledger_of b w)
                     end ∧
    table_of b w' = table_of b w ++ rows ∧
    pending_of b w' = remove_first rid (pending_of b w) ∧
    received_of b w' = received_of b w + 1 ∧
    st_total_items (read_status b w') = st_total_items (read_status b w) ∧
    callback_errors b w' = callback_errors b w ∧
    is_complete b w' =
      (is_complete b w ||
       match remove_first rid (pending_of b w) with [] => true | _ => false end) ∧
    ∃ mails, sent w' = sent w ++ mails ∧ (length mails ≤ 1)%nat ∧
      ∀ m, m ∈ mails →
        (∃ to_addr att, m = ResultEmail to_addr b att) ∧
        pending_of b w' = [] ∧ is_complete b w' = true.
Proof.
  intros Hh Hrid Hb Hf Hbne Hfl.
  unfold callback. rewrite Hh. rewrite (truthy_str_some rid Hrid).
  cbn [negb]. change (default "" (Some rid)) with rid.
  rewrite Hb, Hf. rewrite (truthy_str_some b Hbne).
  cbn [negb]. change (default "" (Some b)) with b. rewrite Hfl.
  set (w1 := append_results_json b rid payload w).
  set (w2 := append_results_csv b rows w1).
  pose proof (batch_dir_append_json_eq b rid payload w) as Hd1. fold w1 in Hd1.
  destruct (append_csv_fields b rows w1) as (Ho2 & Hs2 & Hj2 & Hc2).
  fold w2 in Ho2, Hs2, Hj2, Hc2.
  rewrite Hd1 in Ho2, Hs2, Hj2, Hc2. cbn in Ho2, Hs2, Hj2, Hc2.
  assert (Hst : read_status b w2 = read_status b w).
  { unfold read_status. by rewrite Hs2. }
  destruct (update_status_effect smtp b rid w2)
    as (Hr & Hne & Hj & Hc & Hp & Hrc & Ht & Hce & Hcomp & Hmails).
  eexists. split; [reflexivity|].
  unfold ledger_of, table_of.
  rewrite Hr, Hj, Hc, Hp, Hrc, Ht, Hce, Hcomp, Hj2, Hc2.
  unfold pending_of, received_of, callback_errors, errors_of, is_complete in *.
  rewrite !Hst.
  split. { unfold w2. rewrite requests_append_csv. reflexivity. }
  split. { intros b' Hb'. rewrite Hne by done. unfold w2.
           rewrite batch_dir_append_csv_ne by done.
           unfold w1. by rewrite batch_dir_append_json_ne. }
  repeat split; try reflexivity.
  destruct Hmails as (mails & Hm & Hlen & Hres).
  exists mails. split; [|split; [exact Hlen|]].
  - rewrite Hm. unfold w2. rewrite sent_append_csv. reflexivity.
  - intros m Hin. destruct (Hres m Hin) as (Hx & Hy & Hz).
    rewrite Hp, Hst in Hy. rewrite Hcomp, Hst in Hz. auto.
Qed.

Lemma resolved_batch_some (req : request) (w : world) (b : string) :
  resolved_batch req w = Some b ↔
  ∃ rid, header_request_id req = Some rid ∧ rid ≠ "" ∧
         find_batch_by_request rid w = Some b ∧ b ≠ "".
Proof.
  unfold resolved_batch. split.
  - destruct (header_request_id req) as [rid|]; [|discriminate].
    destruct (String.eqb_spec rid ""); [discriminate|].
    destruct (find_batch_by_request rid w) as [b0|] eqn:Hf; [|discriminate].
    destruct (String.eqb_spec b0 ""); [discriminate|].
    intros [= <-]. exists rid. auto.
  - intros (rid & -> & Hrid & -> & Hb).
    destruct (String.eqb_spec rid ""); [contradiction|].
    destruct (String.eqb_spec b ""); [contradiction | reflexivity].
Qed.

Lemma resolved_batch_none (req : request) (w : world) :
  resolved_batch req w = None →
  truthy_str (header_request_id req) = false ∨
  ∃ rid, header_request_id req = Some rid ∧ rid ≠ "" ∧
         truthy_str (find_batch_by_request rid w) = false.
Proof.
  unfold resolved_batch.
  destruct (header_request_id req) as [rid|]; [|by left]. cbn.
  destruct (String.eqb_spec rid ""); [by left|]. right. exists rid.
  split; [reflexivity|]. split; [assumption|].
  destruct (find_batch_by_request rid w) as [b|] eqn:Hf; [|reflexivity]. cbn.
  destruct (String.eqb_spec b ""); [reflexivity | discriminate].
Qed.

(** A failed delivery whose token resolves to [b]: the error is appended to
    the errors of [b], nothing else of any batch changes. *)
Lemma callback_failed_resolved (req : request) (e : exn) (w : world) (b : string) :
  resolved_batch req w = Some b →
  ∃ w', callback_failed req e w = (HTTPException 500 (str_exn e), w') ∧
    requests w' = requests w ∧
    (∀ b', b ≠ b' → batch_dir b' w' = batch_dir b' w) ∧
    original_csv (batch_dir b w') = original_csv (batch_dir b w) ∧
    results_json (batch_dir b w') = results_json (batch_dir b w) ∧
    results_csv (batch_dir b w') = results_csv (batch_dir b w) ∧
    read_status b w' = append_error (CallbackError (str_exn e)) (read_status b w) ∧
    ∃ mails, sent w' = sent w ++ mails ∧ (length mails ≤ 1)%nat ∧
      ∀ m, m ∈ mails → ∃ to_addr msg, m = ErrorEmail to_addr b msg.
Proof.
  intros (rid & Hh & Hrid & Hf & Hb)%resolved_batch_some.
  unfold callback_failed. rewrite Hh. change (default "" (Some rid)) with rid.
  destruct (String.eqb_spec rid ""); [contradiction|]. cbn [negb].
  rewrite Hf, (truthy_str_some b Hb). change (default "" (Some b)) with b.
  eexists. split; [reflexivity|].
  set (st := append_error _ _).
  destruct (truthy_str (st_email st)).
  - unfold read_status. rewrite !batch_dir_send, batch_dir_write_status_eq. cbn.
    split; [reflexivity|]. split.
    { intros b' Hb'. rewrite batch_dir_send. by rewrite batch_dir_write_status_ne. }
    repeat split; try reflexivity.
    eexists [_]. split; [reflexivity|]. split; [simpl; lia|].
    intros m ->%list_elem_of_singleton. eauto.
  - unfold read_status. rewrite batch_dir_write_status_eq. cbn.
    split; [reflexivity|]. split.
    { intros b' Hb'. by rewrite batch_dir_write_status_ne. }
    repeat split; try reflexivity.
    exists []. rewrite app_nil_r. split; [reflexivity|]. split; [simpl; lia|].
    intros m Hm. inversion Hm.
Qed.

Lemma callback_failed_unresolved (req : request) (e : exn) (w : world) :
  resolved_batch req w = None →
  callback_failed req e w = (HTTPException 500 (str_exn e), w).
Proof.
  intros Hn. unfold callback_failed.
  destruct (resolved_batch_none req w Hn) as [Hh | (rid & Hh & Hrid & Hf)].
  - destruct (header_request_id req) as [rid|]; cbn in *; [|reflexivity].
    destruct (String.eqb rid ""); [reflexivity | discriminate].
  - rewrite Hh. change (default "" (Some rid)) with rid.
    destruct (String.eqb_spec rid ""); [contradiction|]. cbn [negb].
    rewrite Hf. reflexivity.
Qed.

(** A delivery whose token resolves to no batch changes nothing. *)
Lemma callback_unresolved (smtp : option string) (req : request) (w : world) :
  resolved_batch req w = None → snd (callback smtp req w) = w.
Proof.
  intros Hn. unfold callback.
  destruct (resolved_batch_none req w Hn) as [Hh | (rid & Hh & Hrid & Hf)].
  - rewrite Hh. reflexivity.
  - rewrite Hh, (truthy_str_some rid Hrid). cbn [negb].
    change (default "" (Some rid)) with rid.
    destruct (body req) as [payload|e].
    + rewrite Hf. reflexivity.
    + rewrite (callback_failed_unresolved req e w Hn). reflexivity.
Qed.

Lemma resolved_batch_requests (req : request) (w w' : world) :
  requests w' = requests w → resolved_batch req w' = resolved_batch req w.
Proof.
  intros Hr. unfold resolved_batch.
  destruct (header_request_id req) as [rid|]; [|reflexivity].
  by rewrite (find_batch_requests rid w w' Hr).
Qed.

Lemma result_email_other (b b0 : string) (m : mail) :
  (∃ to_addr att, m = ResultEmail to_addr b0 att) →
  is_result_email_for b m = true → b = b0.
Proof.
  intros (to_addr & att & ->). cbn. by intros ->%String.eqb_eq.
Qed.

(** Every delivery attributed to [b0] touches the files of [b0] only, adds one
    to [received] or one callback error, never leaves the complete status, and
    calls the completion email at most once, with [b0] complete. *)
Lemma callback_step_resolved (smtp : option string) (req : request) (w : world)
    (b0 : string) :
  resolved_batch req w = Some b0 →
  let w' := snd (callback smtp req w) in
  requests w' = requests w ∧
  (∀ b', b0 ≠ b' → batch_dir b' w' = batch_dir b' w) ∧
  st_total_items (read_status b0 w') = st_total_items (read_status b0 w) ∧
  received_of b0 w' + callback_errors b0 w' =
    received_of b0 w + callback_errors b0 w + 1 ∧
  (is_complete b0 w = true → is_complete b0 w' = true) ∧
  ∃ mails, sent w' = sent w ++ mails ∧ (length mails ≤ 1)%nat ∧
    ∀ m b, m ∈ mails → is_result_email_for b m = true →
      b = b0 ∧ pending_of b0 w' = [] ∧ is_complete b0 w' = true.
Proof.
  intros Hres. pose proof Hres as (rid & Hh & Hrid & Hf & Hb)%resolved_batch_some.
  assert (Hfail : ∀ e w1,
    requests w1 = requests w → sent w1 = sent w →
    (∀ b', b0 ≠ b' → batch_dir b' w1 = batch_dir b' w) →
    read_status b0 w1 = read_status b0 w →
    let w' := snd (callback_failed req e w1) in
    requests w' = requests w ∧
    (∀ b', b0 ≠ b' → batch_dir b' w' = batch_dir b' w) ∧
    st_total_items (read_status b0 w') = st_total_items (read_status b0 w) ∧
    received_of b0 w' + callback_errors b0 w' =
      received_of b0 w + callback_errors b0 w + 1 ∧
    (is_complete b0 w = true → is_complete b0 w' = true) ∧
    ∃ mails, sent w' = sent w ++ mails ∧ (length mails ≤ 1)%nat ∧
      ∀ m b, m ∈ mails → is_result_email_for b m = true →
        b = b0 ∧ pending_of b0 w' = [] ∧ is_complete b0 w' = true).
  { intros e w1 Hr1 Hs1 Hne1 Hst1.
    assert (Hres1 : resolved_batch req w1 = Some b0)
      by (by rewrite (resolved_batch_requests req w w1 Hr1)).
    destruct (callback_failed_resolved req e w1 b0 Hres1)
      as (w' & -> & Hr & Hne & _ & _ & _ & Hst & mails & Hm & Hlen & Hmails).
    cbn [snd]. unfold received_of, callback_errors, errors_of, is_complete.
    rewrite Hst, Hst1. cbn. rewrite callback_errors_app. cbn.
    split; [congruence|]. split.
    { intros b' Hb'. rewrite Hne by done. by apply Hne1. }
    split; [reflexivity|]. split; [lia|]. split; [auto|].
    exists mails. split; [by rewrite Hm, Hs1|]. split; [exact Hlen|].
    intros m b Hin Hre. destruct (Hmails m Hin) as (to_addr & msg & ->).
    discriminate Hre. }
  unfold callback. rewrite Hh, (truthy_str_some rid Hrid). cbn [negb].
  change (default "" (Some rid)) with rid.
  destruct (body req) as [payload|e] eqn:Hbody.
  - rewrite Hf, (truthy_str_some b0 Hb). cbn [negb].
    change (default "" (Some b0)) with b0.
    destruct (flatten_callback_payload payload) as [rows|e] eqn:Hfl.
    + destruct (callback_resolved smtp req w rid b0 payload rows Hh Hrid Hbody Hf Hb Hfl)
        as (w' & Hcb & Hr & Hne & _ & _ & Hp & Hrc & Ht & Hce & Hcomp & mails & Hm & Hlen & Hmails).
      unfold callback in Hcb. rewrite Hh, (truthy_str_some rid Hrid) in Hcb.
      cbn [negb] in Hcb. change (default "" (Some rid)) with rid in Hcb.
      rewrite Hbody, Hf, (truthy_str_some b0 Hb) in Hcb. cbn [negb] in Hcb.
      change (default "" (Some b0)) with b0 in Hcb. rewrite Hfl in Hcb.
      injection Hcb as Hw'. cbn [snd]. rewrite Hw'.
      split; [exact Hr|]. split; [exact Hne|]. split; [exact Ht|].
      split; [lia|]. split.
      { intros Hc. rewrite Hcomp, Hc. reflexivity. }
      exists mails. split; [exact Hm|]. split; [exact Hlen|].
      intros m b Hin Hre. destruct (Hmails m Hin) as (Hx & Hy & Hz).
      split; [by eapply result_email_other|]. auto.
    + apply Hfail.
      * reflexivity.
      * reflexivity.
      * intros b' Hb'. by apply batch_dir_append_json_ne.
      * unfold read_status. by rewrite batch_dir_append_json_eq.
  - apply Hfail; reflexivity.
Qed.

Lemma filter_at_most_one (b : string) (mails : list mail) :
  (length mails ≤ 1)%nat →
  (length (List.filter (is_result_email_for b) mails) ≤ 1)%nat ∧
  ((0 < length (List.filter (is_result_email_for b) mails))%nat →
   ∃ m, m ∈ mails ∧ is_result_email_for b m = true).
Proof.
  destruct mails as [|m [|m' mails]]; cbn [length]; [| |lia]; intros _.
  - cbn. split; lia.
  - cbn [List.filter]. destruct (is_result_email_for b m) eqn:E; cbn; split;
      try lia. intros _. exists m. split; [apply list_elem_of_here | exact E].
Qed.

(** One delivery, seen from any batch [b]. *)
Lemma callback_step (smtp : option string) (req : request) (w : world) (b : string) :
  let w' := snd (callback smtp req w) in
  requests w' = requests w ∧
  st_total_items (read_status b w') = st_total_items (read_status b w) ∧
  received_of b w' + callback_errors b w' =
    received_of b w + callback_errors b w + (if resolves_to b req w then 1 else 0) ∧
  (is_complete b w = true → is_complete b w' = true) ∧
  (result_emails b w' ≤ result_emails b w + 1)%nat ∧
  ((result_emails b w < result_emails b w')%nat →
   is_complete b w' = true ∧ pending_of b w' = []).
Proof.
  cbn zeta. unfold resolves_to.
  destruct (resolved_batch req w) as [b0|] eqn:Hres.
  - destruct (callback_step_resolved smtp req w b0 Hres)
      as (Hr & Hne & Ht & Hsum & Hc & mails & Hm & Hlen & Hmails).
    destruct (filter_at_most_one b mails Hlen) as (Hfl & Hfex).
    assert (Hemails : result_emails b (snd (callback smtp req w)) =
              (result_emails b w
               + length (List.filter (is_result_email_for b) mails))%nat).
    { unfold result_emails. rewrite Hm, List.filter_app, length_app. reflexivity. }
    destruct (String.eqb_spec b0 b) as [->|Hb].
    + repeat split; try assumption; try lia.
      * destruct Hfex as (m & Hin & Hre); [lia|].
        by destruct (Hmails m b Hin Hre) as (_ & _ & ?).
      * destruct Hfex as (m & Hin & Hre); [lia|].
        by destruct (Hmails m b Hin Hre) as (_ & ? & _).
    + assert (Hd : batch_dir b (snd (callback smtp req w)) = batch_dir b w)
        by (by apply Hne).
      assert (Hz : length (List.filter (is_result_email_for b) mails) = 0%nat).
      { destruct (length (List.filter (is_result_email_for b) mails)) eqn:E;
          [reflexivity|].
        destruct Hfex as (m & Hin & Hre); [lia|].
        destruct (Hmails m b Hin Hre) as (? & _). congruence. }
      unfold received_of, callback_errors, errors_of, is_complete, pending_of,
        read_status. rewrite Hd.
      repeat split; try assumption; try lia; auto.
  - rewrite (callback_unresolved smtp req w Hres).
    repeat split; try reflexivity; try lia. auto.
Qed.



(** C3 (amended): every delivery attributed to a batch adds exactly one to
    [received] or to the callback errors of that batch, redeliveries included,
    and no delivery changes [total_items]; so [received] plus the callback
    errors is the number of deliveries attributed to the batch, and stays within
    [total_items] exactly as long as that number does. *)
Theorem C3_received_counts_deliveries (b : string)
    (ds : list (option string * request)) (w : world) :
  total_items_of b (callbacks ds w) = total_items_of b w ∧
  received_of b (callbacks ds w) + callback_errors b (callbacks ds w) =
    received_of b w + callback_errors b w + resolved_count b ds w.
Proof.
  revert w. induction ds as [|[smtp req] ds IH]; intros w.
  - cbn. split; [reflexivity | lia].
  - cbn [callbacks resolved_count].
    destruct (callback_step smtp req w b) as (_ & Ht & Hsum & _).
    destruct (IH (snd (callback smtp req w))) as (IHt & IHs).
    unfold total_items_of in *. rewrite IHt, Ht, IHs. split; [reflexivity | lia].
Qed.


(** Two deliveries of the same callback, when every write succeeds: both
    are accepted, the second leaves the ledger as it is, adds one to [received]
    again and appends the rows again. *)
Lemma redelivery_effect (smtp1 smtp2 : option string)
    (req : request) (w : world) (rid b : string) (payload : json)
    (rows : list row) :
  header_request_id req = Some rid → rid ≠ "" →
  body req = Ok payload →
  find_batch_by_request rid w = Some b → b ≠ "" →
  flatten_callback_payload payload = Ok rows →
  let w1 := snd (callback smtp1 req w) in
  let w2 := snd (callback smtp2 req w1) in
  fst (callback smtp1 req w) = Accepted None (Some b) ∧
  fst (callback smtp2 req w1) = Accepted None (Some b) ∧
  ledger_of b w2 = ledger_of b w1 ∧
  pending_of b w2 = remove_first rid (pending_of b w1) ∧
  received_of b w2 = received_of b w1 + 1 ∧
  table_of b w2 = table_of b w1 ++ rows.
Proof.
  intros Hh Hrid Hb Hf Hbne Hfl.
  destruct (callback_resolved smtp1 req w rid b payload rows Hh Hrid Hb Hf Hbne Hfl)
    as (w1 & Hcb1 & Hr1 & _ & Hl1 & _).
  cbn zeta. rewrite Hcb1. cbn [fst snd].
  assert (Hf1 : find_batch_by_request rid w1 = Some b)
    by (by rewrite (find_batch_requests rid w w1 Hr1)).
  destruct (callback_resolved smtp2 req w1 rid b payload rows Hh Hrid Hb Hf1 Hbne Hfl)
    as (w2 & Hcb2 & _ & _ & Hl2 & Ht2 & Hp2 & Hrc2 & _).
  rewrite Hcb2. cbn [fst snd].
  repeat split; try assumption.
  rewrite Hl2.
  assert (Hin : is_Some (ledger_of b w1 !! rid)).
  { rewrite Hl1. destruct (ledger_of b w !! rid) as [v|] eqn:E.
    - rewrite E. eauto.
    - rewrite lookup_insert_eq. eauto. }
  destruct Hin as [v ->]. reflexivity.
Qed.


End Callback.

Section Index.

Context `{PyStr}.

Lemma requests_callbacks (ds : list (option string * request)) (w : world) :
  requests (callbacks ds w) = requests w.
Proof.
  revert w. induction ds as [|[smtp req] ds IH]; intros w; [reflexivity|].
  cbn [callbacks]. rewrite IH.
  destruct (callback_step smtp req w "") as (Hr & _). exact Hr.
Qed.

(** C9 (amended): after [register(request_id, batch_id)] the request id
    resolves to that batch id (read back stripped of surrounding white space),
    and keeps doing so whatever callbacks are handled and whatever other request
    ids are registered; a later register for the same request id replaces the
    entry, so the request id then resolves to the batch registered last. *)
Theorem C9_index_entry_last_write_wins (rid b : string) (w : world) :
  let w1 := map_request_to_batch rid b w in
  find_batch_by_request rid w1 = Some (str_strip b) ∧
  (∀ ds, find_batch_by_request rid (callbacks ds w1) = Some (str_strip b)) ∧
  (∀ rid' b', rid' ≠ rid →
     find_batch_by_request rid (map_request_to_batch rid' b' w1)
     = Some (str_strip b)) ∧
  (∀ b', find_batch_by_request rid (map_request_to_batch rid b' w1)
         = Some (str_strip b')).
Proof.
  cbn zeta. unfold find_batch_by_request.
  split; [|split; [|split]].
  - cbn. by rewrite lookup_insert_eq.
  - intros ds. rewrite requests_callbacks. cbn. by rewrite lookup_insert_eq.
  - intros rid' b' Hne. cbn. rewrite lookup_insert_ne by done.
    by rewrite lookup_insert_eq.
  - intros b'. cbn. by rewrite lookup_insert_eq.
Qed.

End Index.

Section Upload.

Context `{PyStr}.





End Upload.

Section Deliveries.

Context `{PyStr}.

(** The status update of a delivery, file by file: only [status.json] of
    the batch is written, and [sent] grows by the completion email exactly
    when the pending list is left empty, an address is known and
    [results.csv] exists. *)
Lemma update_status_exact (smtp : option string) (b rid : string) (w : world) :
  let st := read_status b w in
  let pending := remove_first rid (pending_of b w) in
  let st1 := set_st_received (received_of b w + 1) (set_st_pending pending st) in
  let notify := match pending with [] => true | _ => false end
                && truthy_str (st_email st) && csv_exists b w in
  let st' := match pending with
             | [] =>
                 match smtp with
                 | Some msg =>
                     if notify
                     then append_error (EmailError msg) (set_st_status "complete" st1)
                     else set_st_status "complete" st1
                 | None => set_st_status "complete" st1
                 end
             | _ :: _ => st1
             end in
  let w' := update_status smtp b rid w in
  batch_dir b w' =
    mk_files (original_csv (batch_dir b w)) (Some st')
      (results_json (batch_dir b w)) (results_csv (batch_dir b w)) ∧
  sent w' =
    sent w ++ (if notify
               then [ResultEmail (default "" (st_email st)) b (table_of b w)]
               else []).
Proof.
  cbn zeta. unfold update_status. fold (pending_of b w). fold (received_of b w).
  destruct (remove_first rid (pending_of b w)) as [|q qs]; cbn [andb].
  - unfold notify_complete.
    replace (csv_exists b (write_status b _ w)) with (csv_exists b w)
      by (unfold csv_exists; by rewrite batch_dir_write_status_eq).
    change (st_email (set_st_status "complete" _)) with (st_email (read_status b w)).
    destruct (truthy_str (st_email (read_status b w)) && csv_exists b w).
    + destruct smtp as [msg|].
      * rewrite batch_dir_write_status_eq, batch_dir_send,
          batch_dir_write_status_eq. cbn. split; reflexivity.
      * rewrite batch_dir_send, batch_dir_write_status_eq. cbn.
        split; reflexivity.
    + rewrite batch_dir_write_status_eq. cbn. rewrite app_nil_r.
      destruct smtp; split; reflexivity.
  - rewrite batch_dir_write_status_eq. cbn. rewrite app_nil_r.
    split; reflexivity.
Qed.

Lemma append_csv_exists (b : string) (rows : list row) (w : world) :
  csv_exists b (append_results_csv b rows w) =
    csv_exists b w || match rows with [] => false | _ => true end.
Proof.
  unfold csv_exists. destruct rows as [|r rows].
  - cbn [append_results_csv]. by rewrite orb_false_r.
  - unfold append_results_csv. rewrite batch_dir_set_eq. cbn.
    by rewrite orb_true_r.
Qed.

(** A delivery whose token resolves to [b] and whose payload is flattened
    into [rows], file by file. *)
Lemma callback_success_exact (smtp : option string) (req : request) (w : world)
    (rid b : string) (payload : json) (rows : list row) :
  header_request_id req = Some rid → rid ≠ "" →
  body req = Ok payload →
  find_batch_by_request rid w = Some b → b ≠ "" →
  flatten_callback_payload payload = Ok rows →
  let st := read_status b w in
  let pending := remove_first rid (pending_of b w) in
  let st1 := set_st_received (received_of b w + 1) (set_st_pending pending st) in
  let has_table := csv_exists b w || match rows with [] => false | _ => true end in
  let notify := match pending with [] => true | _ => false end
                && truthy_str (st_email st) && has_table in
  let st' := match pending with
             | [] =>
                 match smtp with
                 | Some msg =>
                     if notify
                     then append_error (EmailError msg) (set_st_status "complete" st1)
                     else set_st_status "complete" st1
                 | None => set_st_status "complete" st1
                 end
             | _ :: _ => st1
             end in
  let w' := snd (callback smtp req w) in
  fst (callback smtp req w) = Accepted None (Some b) ∧
  requests w' = requests w ∧
  (∀ b', b ≠ b' → batch_dir b' w' = batch_dir b' w) ∧
  original_csv (batch_dir b w') = original_csv (batch_dir b w) ∧
  status_json (batch_dir b w') = Some st' ∧
  results_json (batch_dir b w') =
    Some (match ledger_of b w !! rid with
          | Some _ => ledger_of b w
          | None => <[rid := payload]> (ledger_of b w)
          end) ∧
  table_of b w' = table_of b w ++ rows ∧
  csv_exists b w' = has_table ∧
  sent w' =
    sent w ++ (if notify
               then [ResultEmail (default "" (st_email st)) b (table_of b w ++ rows)]
               else []).
Proof.
  intros Hh Hrid Hb Hf Hbne Hfl. cbn zeta.
  unfold callback. rewrite Hh. rewrite (truthy_str_some rid Hrid).
  cbn [negb]. change (default "" (Some rid)) with rid.
  rewrite Hb, Hf. rewrite (truthy_str_some b Hbne).
  cbn [negb]. change (default "" (Some b)) with b. rewrite Hfl. cbn [fst snd].
  set (w1 := append_results_json b rid payload w).
  set (w2 := append_results_csv b rows w1).
  pose proof (batch_dir_append_json_eq b rid payload w) as Hd1. fold w1 in Hd1.
  destruct (append_csv_fields b rows w1) as (Ho2 & Hs2 & Hj2 & Hc2).
  fold w2 in Ho2, Hs2, Hj2, Hc2.
  rewrite Hd1 in Ho2, Hs2, Hj2, Hc2. cbn in Ho2, Hs2, Hj2, Hc2.
  assert (Hst : read_status b w2 = read_status b w).
  { unfold read_status. by rewrite Hs2. }
  assert (Hex : csv_exists b w2 =
            csv_exists b w || match rows with [] => false | _ => true end).
  { unfold w2. rewrite append_csv_exists. f_equal.
    unfold csv_exists. by rewrite Hd1. }
  destruct (update_status_exact smtp b rid w2) as (Hd & Hsent).
  unfold pending_of, received_of in Hd, Hsent. unfold table_of in Hsent.
  rewrite Hst, Hex in Hd, Hsent. rewrite Hc2 in Hsent. rewrite Ho2, Hj2 in Hd.
  fold (pending_of b w) in Hd, Hsent. fold (received_of b w) in Hd, Hsent.
  fold (table_of b w) in Hsent.
  destruct (update_status_effect smtp b rid w2) as (Hr & Hne & _ & Hc & _).
  split; [reflexivity|].
  split. { rewrite Hr. unfold w2. by rewrite requests_append_csv. }
  split. { intros b' Hb'. rewrite Hne by done. unfold w2.
           rewrite batch_dir_append_csv_ne by done.
           unfold w1. by rewrite batch_dir_append_json_ne. }
  split; [by rewrite Hd|]. split; [by rewrite Hd|]. split; [by rewrite Hd|].
  split. { unfold table_of. rewrite Hc. exact Hc2. }
  split. { unfold csv_exists in *. rewrite Hc. exact Hex. }
  rewrite Hsent. unfold w2. rewrite sent_append_csv. reflexivity.
Qed.

Lemma remove_first_sublist (x : string) (l : list string) :
  remove_first x l `sublist_of` l.
Proof.
  induction l as [|y l IH]; cbn; [constructor|].
  destruct (String.eqb x y); [by apply sublist_cons | by apply sublist_skip].
Qed.

Lemma setdefault_subseteq (m : gmap string json) (k : string) (v : json) :
  m ⊆ match m !! k with Some _ => m | None => <[k := v]> m end.
Proof.
  destruct (m !! k) eqn:E; [reflexivity | by apply insert_subseteq].
Qed.

(** How the files of batch [b] may differ between a world and a later one:
    the uploaded file and the address stay, the pending list loses entries,
    the table, the errors and the ledger gain entries, [received] does not go
    down, a status that has keys keeps having keys, and a complete batch with
    nothing pending stays so. *)
Definition batch_grows (b : string) (w w' : world) : Prop :=
  original_csv (batch_dir b w') = original_csv (batch_dir b w) ∧
  st_email (read_status b w') = st_email (read_status b w) ∧
  pending_of b w' `sublist_of` pending_of b w ∧
  table_of b w `prefix_of` table_of b w' ∧
  (csv_exists b w = true → csv_exists b w' = true) ∧
  errors_of b w `prefix_of` errors_of b w' ∧
  ledger_of b w ⊆ ledger_of b w' ∧
  received_of b w ≤ received_of b w' ∧
  (status_is_empty (read_status b w) = false →
   status_is_empty (read_status b w') = false) ∧
  ((is_complete b w = true → pending_of b w = []) →
   is_complete b w' = true → pending_of b w' = []).

Lemma batch_grows_same_files (b : string) (w w' : world) :
  batch_dir b w' = batch_dir b w → batch_grows b w w'.
Proof.
  intros Hd. unfold batch_grows, pending_of, table_of, csv_exists, errors_of,
    ledger_of, received_of, is_complete, read_status. rewrite Hd.
  repeat split; try reflexivity; try lia; auto.
Qed.

Lemma batch_grows_trans (b : string) (w1 w2 w3 : world) :
  batch_grows b w1 w2 → batch_grows b w2 w3 → batch_grows b w1 w3.
Proof.
  intros (Ho & He & Hp & Ht & Hc & Her & Hl & Hr & Hn & Hi)
         (Ho' & He' & Hp' & Ht' & Hc' & Her' & Hl' & Hr' & Hn' & Hi').
  unfold batch_grows. split; [congruence|]. split; [congruence|].
  split; [by etrans|]. split; [by etrans|]. split; [auto|].
  split; [by etrans|]. split; [by etrans|]. split; [lia|]. auto.
Qed.

(** A failed delivery attributed to [b]. *)
Lemma batch_grows_failed (b : string) (w w1 w' : world) (e : exn) :
  original_csv (batch_dir b w1) = original_csv (batch_dir b w) →
  status_json (batch_dir b w1) = status_json (batch_dir b w) →
  results_csv (batch_dir b w1) = results_csv (batch_dir b w) →
  ledger_of b w ⊆ ledger_of b w1 →
  original_csv (batch_dir b w') = original_csv (batch_dir b w1) →
  results_json (batch_dir b w') = results_json (batch_dir b w1) →
  results_csv (batch_dir b w') = results_csv (batch_dir b w1) →
  read_status b w' = append_error (CallbackError (str_exn e)) (read_status b w1) →
  batch_grows b w w'.
Proof.
  intros Ho1 Hs1 Hc1 Hl1 Ho Hj Hc Hst.
  assert (Hst1 : read_status b w1 = read_status b w)
    by (unfold read_status; by rewrite Hs1).
  unfold batch_grows, pending_of, table_of, csv_exists, errors_of, received_of,
    is_complete, ledger_of.
  rewrite Ho, Ho1, Hc, Hc1, Hst, Hst1, Hj. cbn.
  split; [reflexivity|]. split; [reflexivity|]. split; [reflexivity|].
  split; [reflexivity|]. split; [auto|].
  split; [by apply prefix_app_r|]. split; [exact Hl1|]. split; [lia|].
  split; [|auto].
  intros _. by destruct (read_status b w) as [[?|] [?|] [?|] [?|] [?|] [?|] [?|]].
Qed.

Lemma remove_first_nil (x : string) : remove_first x [] = [].
Proof. reflexivity. Qed.

(** A delivery attributed to [b] whose payload is flattened. *)
Lemma batch_grows_success (smtp : option string) (req : request) (w : world)
    (rid b : string) (payload : json) (rows : list row) :
  header_request_id req = Some rid → rid ≠ "" →
  body req = Ok payload →
  find_batch_by_request rid w = Some b → b ≠ "" →
  flatten_callback_payload payload = Ok rows →
  batch_grows b w (snd (callback smtp req w)).
Proof.
  intros Hh Hrid Hb Hf Hbne Hfl.
  destruct (callback_success_exact smtp req w rid b payload rows
              Hh Hrid Hb Hf Hbne Hfl)
    as (_ & _ & _ & Ho & Hs & Hj & Ht & Hc & _).
  cbn zeta in *.
  set (w' := snd (callback smtp req w)) in *.
  assert (Hst : read_status b w' = _) by (unfold read_status; rewrite Hs; reflexivity).
  unfold batch_grows. unfold errors_of at 2, ledger_of at 2, is_complete at 2,
    pending_of at 1 4, received_of at 2.
  rewrite Ho, Hst, Hj, Ht, Hc. cbn [default].
  pose proof (remove_first_sublist rid (pending_of b w)) as Hsub.
  assert (Hne : ∀ st0, status_is_empty
                  (set_st_received (received_of b w + 1) st0) = false).
  { intros st0. by destruct st0 as [[?|] [?|] [?|] [?|] [?|] [?|] [?|]]. }
  destruct (remove_first rid (pending_of b w)) as [|q qs] eqn:Hpend.
  - assert (Hgoal : ∀ st' : batch_status,
      st_email st' = st_email (read_status b w) →
      st_pending st' = Some [] →
      errors_of b w `prefix_of` default [] (st_errors st') →
      received_of b w ≤ default 0 (st_received st') →
      status_is_empty st' = false →
      st_email st' = st_email (read_status b w) ∧
      default [] (st_pending st') `sublist_of` pending_of b w ∧
      table_of b w `prefix_of` table_of b w ++ rows ∧
      (csv_exists b w = true →
       csv_exists b w || match rows with [] => false | _ => true end = true) ∧
      errors_of b w `prefix_of` default [] (st_errors st') ∧
      ledger_of b w ⊆ match ledger_of b w !! rid with
                      | Some _ => ledger_of b w
                      | None => <[rid := payload]> (ledger_of b w)
                      end ∧
      received_of b w ≤ default 0 (st_received st') ∧
      (status_is_empty (read_status b w) = false → status_is_empty st' = false) ∧
      ((is_complete b w = true → pending_of b w = []) →
       match st_status st' with Some s => String.eqb s "complete" | None => false end
         = true → default [] (st_pending st') = [])).
    { intros st' He Hp Her Hr Hn. rewrite Hp. cbn [default].
      split; [exact He|]. split; [apply sublist_nil_l|].
      split; [by apply prefix_app_r|]. split; [by intros ->|].
      split; [exact Her|]. split; [apply setdefault_subseteq|].
      split; [exact Hr|]. auto. }
    split; [reflexivity|].
    destruct smtp as [msg|]; cbn [andb];
      [match goal with |- context [if ?c then _ else _] => destruct c end|];
      unfold id; apply Hgoal; try reflexivity;
      try (unfold received_of; cbn; lia);
      try (cbn; fold (errors_of b w); by apply prefix_app_r);
      try (cbn; fold (errors_of b w); reflexivity).
    all: by destruct (read_status b w) as [[?|] [?|] [?|] [?|] [?|] [?|] [?|]].
  - cbn. fold (errors_of b w).
    split; [reflexivity|]. split; [reflexivity|]. split; [exact Hsub|].
    split; [by apply prefix_app_r|]. split; [by intros ->|].
    split; [reflexivity|]. split; [apply setdefault_subseteq|].
    split; [unfold received_of; lia|].
    split.
    { intros _.
      by destruct (read_status b w) as [[?|] [?|] [?|] [?|] [?|] [?|] [?|]]. }
    intros Hinv Hcomp. fold (is_complete b w) in Hcomp.
    rewrite (Hinv Hcomp) in Hpend. discriminate Hpend.
Qed.

(** Every delivery makes every batch grow. *)
Lemma callback_grows (smtp : option string) (req : request) (w : world)
    (b : string) :
  batch_grows b w (snd (callback smtp req w)).
Proof.
  destruct (resolved_batch req w) as [b0|] eqn:Hres.
  - destruct (decide (b0 = b)) as [->|Hne].
    + pose proof Hres as (rid & Hh & Hrid & Hf & Hb)%resolved_batch_some.
      destruct (body req) as [payload|e] eqn:Hbody.
      * destruct (flatten_callback_payload payload) as [rows|e] eqn:Hfl.
        -- by eapply batch_grows_success.
        -- unfold callback. rewrite Hh, (truthy_str_some rid Hrid). cbn [negb].
           change (default "" (Some rid)) with rid.
           rewrite Hbody, Hf, (truthy_str_some b Hb). cbn [negb].
           change (default "" (Some b)) with b. rewrite Hfl.
           set (w1 := append_results_json b rid payload w).
           assert (Hres1 : resolved_batch req w1 = Some b)
             by (by rewrite (resolved_batch_requests req w w1)).
           destruct (callback_failed_resolved req e w1 b Hres1)
             as (w' & -> & _ & _ & Ho & Hj & Hc & Hst & _).
           cbn [snd].
           pose proof (batch_dir_append_json_eq b rid payload w) as Hd1.
           fold w1 in Hd1.
           eapply (batch_grows_failed b w w1 w' e); try eassumption;
             try (by rewrite Hd1).
           unfold ledger_of at 2. rewrite Hd1. cbn.
           apply setdefault_subseteq.
      * unfold callback. rewrite Hh, (truthy_str_some rid Hrid). cbn [negb].
        rewrite Hbody.
        destruct (callback_failed_resolved req e w b Hres)
          as (w' & -> & _ & _ & Ho & Hj & Hc & Hst & _).
        cbn [snd]. by eapply (batch_grows_failed b w w w' e).
    + apply batch_grows_same_files.
      destruct (callback_step_resolved smtp req w b0 Hres) as (_ & Hfr & _).
      by apply Hfr.
  - rewrite (callback_unresolved smtp req w Hres).
    by apply batch_grows_same_files.
Qed.

Lemma callbacks_grow (ds : list (option string * request)) (w : world) (b : string) :
  batch_grows b w (callbacks ds w).
Proof.
  revert w. induction ds as [|[smtp req] ds IH]; intros w.
  - by apply batch_grows_same_files.
  - cbn [callbacks]. eapply batch_grows_trans; [apply callback_grows | apply IH].
Qed.

End Deliveries.

(** * The handler with the writes that raise *)

Section WritableDeliveries.

Context `{PyStr} `{PyCodec}.

Lemma split_rows_writable (rows : list row) :
  forallb row_writable rows = true → split_rows rows = (rows, None).
Proof.
  induction rows as [|r rows IH]; [reflexivity|]. cbn [forallb split_rows].
  intros [Hr Hrows]%andb_prop. rewrite Hr, (IH Hrows). reflexivity.
Qed.

Lemma append_results_json_io_written (b rid : string) (p : json) (w : world) :
  ledger_writable (ledger_setdefault rid p (ledger_of b w)) = true →
  append_results_json_io b rid p w = (append_results_json b rid p w, None).
Proof.
  intros Hw. unfold append_results_json_io. fold (ledger_of b w). by rewrite Hw.
Qed.

Lemma append_results_csv_io_written (b : string) (rows : list row) (w : world) :
  forallb row_writable rows = true →
  append_results_csv_io b rows w = (append_results_csv b rows w, None).
Proof.
  intros Hw. unfold append_results_csv_io, append_results_csv.
  rewrite (split_rows_writable rows Hw). by destruct rows.
Qed.

(** On a delivery whose result files can be written, the handler does what
    [callback] does. *)
Lemma callback_io_writable (smtp : option string) (req : request) (w : world) :
  delivery_writable req w = true →
  callback_io smtp req w = callback smtp req w.
Proof.
  unfold delivery_writable, callback_io, callback.
  destruct (truthy_str (header_request_id req)) eqn:Hh; [|reflexivity].
  cbn [negb]. destruct (body req) as [payload|e] eqn:Hbody;
    [|by destruct (resolved_batch req w)].
  destruct (truthy_str_inv _ Hh) as (rid & Hrid & Hne). rewrite Hrid.
  change (default "" (Some rid)) with rid.
  destruct (truthy_str (find_batch_by_request rid w)) eqn:Hf; [|reflexivity].
  destruct (truthy_str_inv _ Hf) as (b & Hb & Hbne). rewrite Hb.
  change (default "" (Some b)) with b. cbn [negb].
  assert (Hres : resolved_batch req w = Some b)
    by (apply resolved_batch_some; eauto 10).
  rewrite Hres. intros [Hl Hr]%andb_prop.
  rewrite (append_results_json_io_written b rid payload w Hl).
  destruct (flatten_callback_payload payload) as [rows|e]; [|reflexivity].
  by rewrite (append_results_csv_io_written b rows _ Hr).
Qed.

Lemma delivery_writable_resolved (req : request) (w : world) (rid b : string)
    (payload : json) (rows : list row) :
  header_request_id req = Some rid → rid ≠ "" →
  body req = Ok payload →
  find_batch_by_request rid w = Some b → b ≠ "" →
  flatten_callback_payload payload = Ok rows →
  ledger_writable (ledger_setdefault rid payload (ledger_of b w)) = true →
  forallb row_writable rows = true →
  delivery_writable req w = true.
Proof.
  intros Hh Hrid Hb Hf Hbne Hfl Hl Hr. unfold delivery_writable.
  assert (Hres : resolved_batch req w = Some b)
    by (apply resolved_batch_some; eauto 10).
  rewrite Hres, Hb, Hh, Hfl. change (default "" (Some rid)) with rid.
  by rewrite Hl, Hr.
Qed.

Lemma callbacks_io_writable (ds : list (option string * request)) (w : world) :
  deliveries_writable ds w = true → callbacks_io ds w = callbacks ds w.
Proof.
  revert w. induction ds as [|[smtp req] ds IH]; intros w; [reflexivity|].
  cbn [deliveries_writable callbacks_io callbacks].
  intros [Hd Hds]%andb_prop.
  rewrite (callback_io_writable smtp req w Hd) in *. by apply IH.
Qed.

Lemma ledger_setdefault_again (rid : string) (p p' : json)
    (data : gmap string json) :
  ledger_setdefault rid p' (ledger_setdefault rid p data)
  = ledger_setdefault rid p data.
Proof.
  unfold ledger_setdefault. destruct (data !! rid) as [v|] eqn:E.
  - by rewrite E.
  - by rewrite lookup_insert_eq.
Qed.

(** C1 (amended): when a callback whose token resolves to a batch, whose
    payload is flattened without error and whose result files can be written
    (the ledger and the rows hold no text that the encoding of the files
    rejects) is delivered twice, both deliveries are acknowledged successfully
    and the second leaves the raw payload ledger unchanged (first write wins);
    the second delivery does add one to [received] again and appends the rows
    of the payload to the result table again. *)
Theorem C1_redelivery_accepted_ledger_unchanged (smtp1 smtp2 : option string)
    (req : request) (w : world) (rid b : string) (payload : json)
    (rows : list row) :
  header_request_id req = Some rid → rid ≠ "" →
  body req = Ok payload →
  find_batch_by_request rid w = Some b → b ≠ "" →
  flatten_callback_payload payload = Ok rows →
  ledger_writable (ledger_setdefault rid payload (ledger_of b w)) = true →
  forallb row_writable rows = true →
  let w1 := snd (callback_io smtp1 req w) in
  let w2 := snd (callback_io smtp2 req w1) in
  fst (callback_io smtp1 req w) = Accepted None (Some b) ∧
  fst (callback_io smtp2 req w1) = Accepted None (Some b) ∧
  ledger_of b w2 = ledger_of b w1 ∧
  pending_of b w2 = remove_first rid (pending_of b w1) ∧
  received_of b w2 = received_of b w1 + 1 ∧
  table_of b w2 = table_of b w1 ++ rows.
Proof.
  intros Hh Hrid Hb Hf Hbne Hfl Hl Hr. cbn zeta.
  rewrite (callback_io_writable smtp1 req w)
    by (by eapply delivery_writable_resolved).
  destruct (callback_resolved smtp1 req w rid b payload rows Hh Hrid Hb Hf Hbne Hfl)
    as (w1 & Hcb1 & Hr1 & _ & Hl1 & _).
  assert (Hf1 : find_batch_by_request rid (snd (callback smtp1 req w)) = Some b).
  { rewrite Hcb1. cbn [snd]. by rewrite (find_batch_requests rid w w1 Hr1). }
  assert (Hw1 : delivery_writable req (snd (callback smtp1 req w)) = true).
  { eapply delivery_writable_resolved; try eassumption.
    rewrite Hcb1. cbn [snd]. rewrite Hl1.
    fold (ledger_setdefault rid payload (ledger_of b w)).
    by rewrite ledger_setdefault_again. }
  rewrite (callback_io_writable smtp2 req _ Hw1).
  by apply (redelivery_effect smtp1 smtp2 req w rid b payload rows).
Qed.

(** X3: as long as the result files of every delivery can be written, a raw
    payload stored in the ledger of a batch is never replaced nor removed by
    later deliveries. *)
Theorem ledger_entries_never_change (ds : list (option string * request))
    (w : world) (b rid : string) (v : json) :
  deliveries_writable ds w = true →
  ledger_of b w !! rid = Some v →
  ledger_of b (callbacks_io ds w) !! rid = Some v.
Proof.
  intros Hw Hv. rewrite (callbacks_io_writable ds w Hw).
  destruct (callbacks_grow ds w b) as (_ & _ & _ & _ & _ & _ & Hl & _).
  by eapply lookup_weaken.
Qed.

(** X8: when exactly the completion email is attempted.  A delivery that
    resolves to [b], is flattened into [rows] and whose result files can be
    written is accepted, whatever the mail transport does, and calls the
    transport once, with the whole table as attachment, when it leaves the
    pending list empty, the batch has an address and [results.csv] exists;
    otherwise it sends nothing. *)
Theorem completion_email_condition (smtp : option string) (req : request)
    (w : world) (rid b : string) (payload : json) (rows : list row) :
  header_request_id req = Some rid → rid ≠ "" →
  body req = Ok payload →
  find_batch_by_request rid w = Some b → b ≠ "" →
  flatten_callback_payload payload = Ok rows →
  ledger_writable (ledger_setdefault rid payload (ledger_of b w)) = true →
  forallb row_writable rows = true →
  let w' := snd (callback_io smtp req w) in
  fst (callback_io smtp req w) = Accepted None (Some b) ∧
  sent w' =
    sent w ++
    (if match remove_first rid (pending_of b w) with [] => true | _ => false end
        && truthy_str (st_email (read_status b w))
        && (csv_exists b w || match rows with [] => false | _ => true end)
     then [ResultEmail (default "" (st_email (read_status b w))) b
             (table_of b w ++ rows)]
     else []).
Proof.
  intros Hh Hrid Hb Hf Hbne Hfl Hl Hr. cbn zeta.
  rewrite (callback_io_writable smtp req w)
    by (by eapply delivery_writable_resolved).
  destruct (callback_success_exact smtp req w rid b payload rows
              Hh Hrid Hb Hf Hbne Hfl)
    as (Hacc & _ & _ & _ & _ & _ & _ & _ & Hsent).
  split; [exact Hacc | exact Hsent].
Qed.

(** X10: a delivery that resolves to a batch whose [status.json] does not
    exist (its upload has registered the request id and not yet written the
    status), whose body is parsed and flattened without error and whose result
    files can be written, is accepted, writes a status made of an empty pending
    list, [received = 1] and the complete status only, and sends no email. *)
Theorem delivery_before_status_written (smtp : option string) (req : request)
    (w : world) (rid b : string) (payload : json) (rows : list row) :
  header_request_id req = Some rid → rid ≠ "" →
  body req = Ok payload →
  find_batch_by_request rid w = Some b → b ≠ "" →
  flatten_callback_payload payload = Ok rows →
  ledger_writable (ledger_setdefault rid payload (ledger_of b w)) = true →
  forallb row_writable rows = true →
  status_json (batch_dir b w) = None →
  let w' := snd (callback_io smtp req w) in
  fst (callback_io smtp req w) = Accepted None (Some b) ∧
  read_status b w' =
    mk_status (Some "complete") None None (Some []) (Some 1) None None ∧
  sent w' = sent w.
Proof.
  intros Hh Hrid Hb Hf Hbne Hfl Hl Hr Hnone. cbn zeta.
  rewrite (callback_io_writable smtp req w)
    by (by eapply delivery_writable_resolved).
  destruct (callback_success_exact smtp req w rid b payload rows
              Hh Hrid Hb Hf Hbne Hfl)
    as (Hacc & _ & _ & _ & Hs & _ & _ & _ & Hsent).
  cbn zeta in *.
  assert (Hst : read_status b w = empty_status)
    by (unfold read_status; by rewrite Hnone).
  unfold pending_of, received_of in Hs, Hsent. rewrite Hst in Hs, Hsent.
  cbn in Hs, Hsent. rewrite app_nil_r in Hsent.
  split; [exact Hacc|]. split; [|exact Hsent].
  unfold read_status. rewrite Hs. by destruct smtp.
Qed.

(** X18: the raw payload ledger is first-write-wins, and a write that raises
    empties it.  When the ledger with the payload recorded can be written, the
    call does not raise, the ledger holds for the request id what it held
    before, or this payload if it held nothing, the other ids are as before,
    and recording another payload for the same id afterwards changes nothing at
    all.  When it cannot, the call raises [UnicodeEncodeError] and leaves
    [results.json] empty, the other files of the batch being as before. *)
Theorem ledger_first_write_wins (b rid : string) (p1 p2 : json) (w : world) :
  let w1 := fst (append_results_json_io b rid p1 w) in
  let raised := snd (append_results_json_io b rid p1 w) in
  (ledger_writable (ledger_setdefault rid p1 (ledger_of b w)) = true →
   raised = None ∧
   ledger_of b w1 !! rid = Some (default p1 (ledger_of b w !! rid)) ∧
   (∀ rid', rid ≠ rid' → ledger_of b w1 !! rid' = ledger_of b w !! rid') ∧
   append_results_json_io b rid p2 w1 = (w1, None)) ∧
  (ledger_writable (ledger_setdefault rid p1 (ledger_of b w)) = false →
   raised = Some (UnicodeEncodeError
                    (ledger_error_text (ledger_setdefault rid p1 (ledger_of b w)))) ∧
   results_json (batch_dir b w1) = Some ∅ ∧
   original_csv (batch_dir b w1) = original_csv (batch_dir b w) ∧
   status_json (batch_dir b w1) = status_json (batch_dir b w) ∧
   results_csv (batch_dir b w1) = results_csv (batch_dir b w)).
Proof.
  cbn zeta.
  assert (Hio : append_results_json_io b rid p1 w =
    if ledger_writable (ledger_setdefault rid p1 (ledger_of b w)) then
      (set_batch_dir b
         (mk_files (original_csv (batch_dir b w)) (status_json (batch_dir b w))
            (Some (ledger_setdefault rid p1 (ledger_of b w)))
            (results_csv (batch_dir b w))) w, None)
    else
      (set_batch_dir b
         (mk_files (original_csv (batch_dir b w)) (status_json (batch_dir b w))
            (Some ∅) (results_csv (batch_dir b w))) w,
       Some (UnicodeEncodeError
               (ledger_error_text (ledger_setdefault rid p1 (ledger_of b w))))))
    by reflexivity.
  rewrite Hio. clear Hio. split; intros Hw; rewrite Hw; cbn [fst snd].
  - set (w1 := set_batch_dir b _ w).
    assert (Hd : batch_dir b w1 =
              mk_files (original_csv (batch_dir b w)) (status_json (batch_dir b w))
                (Some (ledger_setdefault rid p1 (ledger_of b w)))
                (results_csv (batch_dir b w)))
      by apply batch_dir_set_eq.
    assert (Hl : ledger_of b w1 = ledger_setdefault rid p1 (ledger_of b w))
      by (unfold ledger_of at 1; by rewrite Hd).
    split; [reflexivity|]. rewrite Hl. split; [|split].
    + unfold ledger_setdefault.
      destruct (ledger_of b w !! rid) as [v|] eqn:E; cbn; [exact E|].
      by rewrite lookup_insert_eq.
    + intros rid' Hne. unfold ledger_setdefault.
      destruct (ledger_of b w !! rid); [reflexivity|].
      by rewrite lookup_insert_ne.
    + unfold append_results_json_io. fold (ledger_of b w1).
      rewrite Hl, ledger_setdefault_again, Hw, Hd.
      cbn [original_csv status_json results_csv].
      unfold w1. by rewrite set_batch_dir_twice.
  - rewrite batch_dir_set_eq. cbn. auto.
Qed.

End WritableDeliveries.

(** * Further properties of the handlers *)

Section DeliveryProperties.

Context `{PyStr}.

(** X1: whatever deliveries are handled, the pending list of a batch only
    loses entries: it is a sublist of what it was. *)
Theorem pending_never_grows (ds : list (option string * request)) (w : world)
    (b : string) :
  pending_of b (callbacks ds w) `sublist_of` pending_of b w.
Proof. by destruct (callbacks_grow ds w b) as (_ & _ & Hp & _). Qed.

(** X2: once [results.csv] of a batch can be downloaded it stays
    downloadable, and the rows it held stay where they were: later deliveries
    only add rows after them. *)
Theorem result_table_append_only (ds : list (option string * request))
    (w : world) (b : string) (t : list row) :
  download b w = Found t →
  ∃ t', download b (callbacks ds w) = Found (t ++ t').
Proof.
  destruct (callbacks_grow ds w b) as (_ & _ & _ & Ht & Hc & _).
  unfold download, table_of, csv_exists in *.
  destruct (results_csv (batch_dir b w)) as [t0|]; [|discriminate].
  intros [= ->]. specialize (Hc eq_refl).
  destruct (results_csv (batch_dir b (callbacks ds w))) as [t1|]; [|discriminate].
  cbn in Ht. destruct Ht as [t' ->]. by exists t'.
Qed.

(** X4: the error list of a batch is append-only under deliveries. *)
Theorem errors_append_only (ds : list (option string * request)) (w : world)
    (b : string) :
  errors_of b w `prefix_of` errors_of b (callbacks ds w).
Proof. by destruct (callbacks_grow ds w b) as (_ & _ & _ & _ & _ & He & _). Qed.

(** X5: deliveries never touch the uploaded file of a batch, its notification
    address, or the correlation index. *)
Theorem callbacks_keep_upload_and_index (ds : list (option string * request))
    (w : world) (b : string) :
  original_csv (batch_dir b (callbacks ds w)) = original_csv (batch_dir b w) ∧
  st_email (read_status b (callbacks ds w)) = st_email (read_status b w) ∧
  requests (callbacks ds w) = requests w.
Proof.
  destruct (callbacks_grow ds w b) as (Ho & He & _).
  split; [exact Ho|]. split; [exact He | apply requests_callbacks].
Qed.

(** X6: a delivery changes no file of a batch other than the one its token
    resolves to. *)
Theorem other_batches_untouched (smtp : option string) (req : request)
    (w : world) (b : string) :
  resolved_batch req w ≠ Some b →
  batch_dir b (snd (callback smtp req w)) = batch_dir b w.
Proof.
  intros Hne. destruct (resolved_batch req w) as [b0|] eqn:Hres.
  - destruct (callback_step_resolved smtp req w b0 Hres) as (_ & Hfr & _).
    apply Hfr. congruence.
  - by rewrite (callback_unresolved smtp req w Hres).
Qed.

(** X7: a batch that is complete only with an empty pending list keeps that
    property under deliveries. *)
Theorem complete_implies_nothing_pending (ds : list (option string * request))
    (w : world) (b : string) :
  (is_complete b w = true → pending_of b w = []) →
  is_complete b (callbacks ds w) = true → pending_of b (callbacks ds w) = [].
Proof.
  by destruct (callbacks_grow ds w b) as (_ & _ & _ & _ & _ & _ & _ & _ & _ & Hi).
Qed.


(** X11: a batch can complete without any email.  A delivery with nothing to
    flatten (an empty payload) that empties the pending list of a batch without
    [results.csv] marks the batch complete, sends no email, and leaves the
    download unavailable. *)
Theorem completes_without_email_when_no_rows (smtp : option string)
    (req : request) (w : world) (rid b : string) (payload : json) :
  header_request_id req = Some rid → rid ≠ "" →
  body req = Ok payload →
  find_batch_by_request rid w = Some b → b ≠ "" →
  truthy payload = false →
  remove_first rid (pending_of b w) = [] →
  csv_exists b w = false →
  let w' := snd (callback smtp req w) in
  fst (callback smtp req w) = Accepted None (Some b) ∧
  is_complete b w' = true ∧
  sent w' = sent w ∧
  download b w' = NotFound "results.csv not found for batch".
Proof.
  intros Hh Hrid Hb Hf Hbne Hfalsy Hp Hc.
  assert (Hfl : flatten_callback_payload payload = Ok [])
    by (unfold flatten_callback_payload; by rewrite Hfalsy).
  destruct (callback_success_exact smtp req w rid b payload []
              Hh Hrid Hb Hf Hbne Hfl)
    as (Hacc & _ & _ & _ & Hs & _ & _ & Hex & Hsent).
  cbn zeta in *. rewrite Hp, Hc in Hs, Hsent. rewrite Hc in Hex.
  rewrite andb_false_r in Hs, Hsent. cbn in Hex. rewrite app_nil_r in Hsent.
  split; [exact Hacc|]. split; [|split; [exact Hsent|]].
  - unfold is_complete, read_status. rewrite Hs. by destruct smtp.
  - unfold download. unfold csv_exists in Hex.
    by destruct (results_csv (batch_dir b (snd (callback smtp req w)))).
Qed.


End DeliveryProperties.

Section UploadProperties.

Context `{PyStr}.

Lemma upload_loop_cons (b : string) (item : string * submit_result)
    (items : list (string * submit_result)) (acc : world * batch_status) :
  upload_loop b (item :: items) acc = upload_loop b items (upload_step b acc item).
Proof. reflexivity. Qed.

(** The local status dict after the loop. *)
Lemma upload_loop_status (b : string) (items : list (string * submit_result))
    (w : world) (st : batch_status) (p : list string) (es : list error_entry)
    (ss : list submission) :
  st_pending st = Some p → st_errors st = Some es → st_submissions st = Some ss →
  snd (upload_loop b items (w, st)) =
    mk_status (st_status st) (st_email st) (st_total_items st)
      (Some (p ++ registered_ids items)) (st_received st)
      (Some (es ++ failed_items items)) (Some (ss ++ submissions_of items)).
Proof.
  revert w st p es ss.
  induction items as [|[url resp] items IH]; intros w st p es ss Hp He Hs.
  - cbn. rewrite !app_nil_r. destruct st; cbn in *. congruence.
  - rewrite upload_loop_cons. unfold upload_step.
    cbn [registered_ids failed_items submissions_of map fst snd].
    destruct (success resp) eqn:Hsucc; cbn [negb andb].
    + destruct (truthy_str (request_id resp)) eqn:Hrid.
      * erewrite IH; [|cbn; reflexivity|cbn; exact He|cbn; rewrite Hs; reflexivity].
        cbn. rewrite Hp. cbn. by rewrite <- !app_assoc.
      * erewrite IH; [|cbn; exact Hp|cbn; exact He|cbn; rewrite Hs; reflexivity].
        cbn. by rewrite <- !app_assoc.
    + erewrite IH; [|cbn; exact Hp|cbn; rewrite He; reflexivity
                    |cbn; rewrite Hs; reflexivity].
      cbn. by rewrite <- !app_assoc.
Qed.


(** The status an accepted upload writes. *)
Lemma upload_read_status (now : datetime) (content user_email : string)
    (items : list (string * submit_result)) (w : world) :
  items ≠ [] →
  read_status (new_batch_id now) (snd (upload now content user_email items w)) =
    mk_status (Some "processing") (Some user_email)
      (Some (Z.of_nat (length items))) (Some (registered_ids items)) (Some 0)
      (Some (failed_items items)) (Some (submissions_of items)).
Proof.
  intros Hne. unfold upload. destruct items as [|item items]; [done|].
  set (items' := item :: items) in *.
  pose proof (upload_loop_status (new_batch_id now) items'
                (save_original_csv (new_batch_id now) content w)
                (initial_status user_email (length items')) [] [] []
                eq_refl eq_refl eq_refl) as Hst.
  destruct (upload_loop (new_batch_id now) items' _) as [w1 st1].
  cbn [fst snd] in *. subst st1. by rewrite read_status_write_status.
Qed.


(** X14: an upload without any URL is answered with 400 after the uploaded
    file was saved under the fresh batch id; no status is written and nothing
    is registered. *)
Theorem upload_without_urls (now : datetime) (content user_email : string)
    (w : world) :
  let b := new_batch_id now in
  let w' := snd (upload now content user_email [] w) in
  fst (upload now content user_email [] w) =
    UploadError 400 "No LinkedIn URLs found in CSV" ∧
  original_csv (batch_dir b w') = Some content ∧
  read_status b w' = read_status b w ∧
  requests w' = requests w ∧
  ∀ b', b ≠ b' → batch_dir b' w' = batch_dir b' w.
Proof.
  cbn. unfold save_original_csv, read_status. rewrite batch_dir_set_eq. cbn.
  repeat split; try reflexivity. intros b' Hb'. by rewrite batch_dir_set_ne.
Qed.



(** X16: from an accepted upload on, whatever deliveries are handled, a batch
    whose status is complete has nothing pending. *)
Theorem complete_after_upload_nothing_pending (now : datetime)
    (content user_email : string) (items : list (string * submit_result))
    (w : world) (ds : list (option string * request)) :
  items ≠ [] →
  let w' := callbacks ds (snd (upload now content user_email items w)) in
  is_complete (new_batch_id now) w' = true →
  pending_of (new_batch_id now) w' = [].
Proof.
  intros Hne. cbn zeta.
  pose proof (upload_read_status now content user_email items w Hne) as Hst.
  set (w1 := snd (upload now content user_email items w)) in *.
  destruct (callbacks_grow ds w1 (new_batch_id now))
    as (_ & _ & _ & _ & _ & _ & _ & _ & _ & Hi).
  apply Hi. unfold is_complete. rewrite Hst. cbn. discriminate.
Qed.

End UploadProperties.

Section StorageProperties.

Context `{PyStr}.




End StorageProperties.

Section FlatteningProperties.

Context `{PyStr}.

Lemma mapM_app {A B} (f : A → result B) (l1 l2 : list A) :
  mapM f (l1 ++ l2) = (a ← mapM f l1; b ← mapM f l2; Ok (a ++ b)).
Proof.
  induction l1 as [|x l1 IH]; cbn [app mapM].
  - cbn. by destruct (mapM f l2).
  - destruct (f x) as [y|e]; cbn; [|reflexivity].
    rewrite IH. destruct (mapM f l1) as [ys|e]; cbn; [|reflexivity].
    by destruct (mapM f l2).
Qed.

Lemma flatten_list_items (items : list json) :
  flatten_callback_payload (JList items) = flatten_items items.
Proof.
  unfold flatten_callback_payload. destruct items; reflexivity.
Qed.

(** X21: flattening goes item by item, in order, all or nothing.  The rows
    of two lists of items put end to end are the rows of the first followed by
    the rows of the second; when an item of either list raises, the whole
    payload raises (the first exception met) and no row is returned. *)
Theorem flatten_payload_app (items1 items2 : list json) :
  flatten_callback_payload (JList (items1 ++ items2)) =
    (rows1 ← flatten_callback_payload (JList items1);
     rows2 ← flatten_callback_payload (JList items2);
     Ok (rows1 ++ rows2)).
Proof.
  rewrite !flatten_list_items. unfold flatten_items. rewrite mapM_app.
  destruct (mapM flatten_item items1) as [rss1|e]; cbn; [|reflexivity].
  destruct (mapM flatten_item items2) as [rss2|e]; cbn; [|reflexivity].
  by rewrite concat_app.
Qed.

Lemma contact_row_fields (u f s l c : json) (r : row) :
  contact_row u f s l c = Ok r →
  uid r = u ∧ full_name r = f ∧ status r = s ∧ linkedin_url r = l.
Proof.
  unfold contact_row.
  destruct (py_get c "type") as [ty|]; cbn [mbind result_bind]; [|discriminate].
  destruct (py_get c "value") as [v|]; cbn [mbind result_bind]; [|discriminate].
  destruct (py_get c "subType") as [s1|]; cbn [mbind result_bind]; [|discriminate].
  destruct (py_get c "sub_type") as [s2|]; cbn [mbind result_bind]; [|discriminate].
  intros [= <-]. cbn. auto.
Qed.

Lemma mapM_contact_row_fields (u f s l : json) (cs : list json) (rows : list row) :
  mapM (contact_row u f s l) cs = Ok rows →
  length rows = length cs ∧
  Forall (λ r, uid r = u ∧ full_name r = f ∧ status r = s ∧ linkedin_url r = l)
    rows.
Proof.
  revert rows. induction cs as [|c cs IH]; intros rows; cbn [mapM].
  - intros [= <-]. split; [reflexivity | constructor].
  - destruct (contact_row u f s l c) as [r|] eqn:Hc; cbn [mbind result_bind];
      [|discriminate].
    destruct (mapM (contact_row u f s l) cs) as [rs|]; cbn [mbind result_bind];
      [|discriminate].
    intros [= <-]. destruct (IH rs eq_refl) as [Hlen Hall].
    split; [cbn; by rewrite Hlen|].
    constructor; [by eapply contact_row_fields | exact Hall].
Qed.

Lemma py_iter_truthy (x : json) (l : list json) :
  truthy x = true → py_iter x = Ok l → l ≠ [].
Proof.
  destruct x; cbn; try discriminate.
  - destruct s; cbn; [discriminate|]. by intros _ [= <-].
  - destruct l0; [discriminate|]. by intros _ [= <-].
  - destruct o; [discriminate|]. by intros _ [= <-].
Qed.

(** The rows of any item that is flattened without exception. *)
Lemma flatten_item_rows (it : json) (rows : list row) :
  flatten_item it = Ok rows →
  rows ≠ [] ∧
  ∃ u f s l, Forall (λ r, uid r = u ∧ full_name r = f ∧ status r = s ∧
                          linkedin_url r = l) rows.
Proof.
  unfold flatten_item.
  destruct (py_get it "status") as [s|]; cbn [mbind result_bind]; [|discriminate].
  destruct (py_get it "item") as [oi|]; cbn [mbind result_bind]; [|discriminate].
  destruct (py_get it "candidate") as [c0|]; cbn [mbind result_bind]; [|discriminate].
  destruct (py_get _ "uid") as [u|]; cbn [mbind result_bind]; [|discriminate].
  destruct (py_get _ "fullName") as [f1|]; cbn [mbind result_bind]; [|discriminate].
  destruct (py_get _ "full_name") as [f2|]; cbn [mbind result_bind]; [|discriminate].
  destruct (py_get _ "social") as [so|]; cbn [mbind result_bind]; [|discriminate].
  destruct (py_iter _) as [socials|]; cbn [mbind result_bind]; [|discriminate].
  destruct (find_linkedin socials) as [li|]; cbn [mbind result_bind]; [|discriminate].
  destruct (py_get _ "contacts") as [co|]; cbn [mbind result_bind]; [|discriminate].
  destruct (truthy (py_or co (JList []))) eqn:Ht.
  - destruct (py_iter (py_or co (JList []))) as [cs|] eqn:Hcs;
      cbn [mbind result_bind]; [|discriminate].
    intros Hrows. apply mapM_contact_row_fields in Hrows as [Hlen Hall].
    split; [|eauto].
    pose proof (py_iter_truthy _ _ Ht Hcs) as Hne.
    destruct rows; [|discriminate]. destruct cs; [done | discriminate].
  - intros [= <-]. split; [discriminate|].
    do 4 eexists. constructor; [cbn; eauto | constructor].
Qed.

Lemma flatten_items_length (items : list json) (rows : list row) :
  flatten_items items = Ok rows → (length items ≤ length rows)%nat.
Proof.
  unfold flatten_items. revert rows.
  induction items as [|it items IH]; intros rows; cbn [mapM].
  - cbn. intros _. lia.
  - destruct (flatten_item it) as [rs|] eqn:Hit; cbn [mbind result_bind];
      [|discriminate].
    destruct (mapM flatten_item items) as [rss|]; cbn [mbind result_bind];
      [|discriminate].
    intros [= <-]. cbn [concat]. rewrite length_app.
    specialize (IH (concat rss) eq_refl).
    apply flatten_item_rows in Hit as [Hne _].
    destruct rs; [done|]. cbn. lia.
Qed.

(** X22: whatever the payload, when flattening returns it returns at least
    one row for each item of a non-empty payload: an item never vanishes from
    the table, a payload is either refused as a whole or fully traced. *)
Theorem flattened_rows_per_item (p : json) (rows : list row) :
  flatten_callback_payload p = Ok rows → truthy p = true →
  (1 ≤ length (payload_items p) ≤ length rows)%nat.
Proof.
  unfold flatten_callback_payload. intros Hf Ht. rewrite Ht in Hf. cbn in Hf.
  split; [|by apply flatten_items_length].
  destruct p; cbn; try lia. destruct l; [discriminate | cbn; lia].
Qed.

(** X23: the rows flattened from one item agree on everything but the
    contact: same uid, same full name, same status, same display link. *)
Theorem item_rows_share_identity (it : json) (rows : list row) (r1 r2 : row) :
  flatten_item it = Ok rows → r1 ∈ rows → r2 ∈ rows →
  uid r1 = uid r2 ∧ full_name r1 = full_name r2 ∧ status r1 = status r2 ∧
  linkedin_url r1 = linkedin_url r2.
Proof.
  intros (_ & u & f & s & l & Hall)%flatten_item_rows H1 H2.
  rewrite Forall_forall in Hall.
  destruct (Hall r1 H1) as (-> & -> & -> & ->).
  destruct (Hall r2 H2) as (-> & -> & -> & ->). auto.
Qed.

End FlatteningProperties.

Section BatchIdProperties.

Lemma list_ascii_append (a b : string) :
  list_ascii_of_string (a +:+ b) =
    list_ascii_of_string a ++ list_ascii_of_string b.
Proof.
  induction a as [|x a IH]; [reflexivity|]. rewrite append_cons. cbn.
  by rewrite IH.
Qed.

Lemma digit_decimal (n : N) : is_decimal_digit (digit (n mod 10)) = true.
Proof.
  unfold is_decimal_digit, digit.
  assert (Hm : (n mod 10 < 10)%N) by (by apply N.mod_lt).
  revert Hm. generalize (n mod 10)%N. intros m Hm.
  rewrite N_ascii_embedding by lia.
  apply andb_true_intro. split; apply N.leb_le; lia.
Qed.

Lemma digits_decimal (w : nat) (n : N) :
  Forall (λ c, is_decimal_digit c = true) (list_ascii_of_string (digits w n)).
Proof.
  revert n. induction w as [|w IH]; intros n; cbn [digits]; [constructor|].
  rewrite list_ascii_append. apply Forall_app. split; [apply IH|].
  cbn. constructor; [apply digit_decimal | constructor].
Qed.

(** X24: whatever the clock reads, the batch id is made of exactly eight
    decimal digits; in particular it is never empty, so that the test
    [if not batch_id] of the callback handler never mistakes a generated id for
    an unknown one. *)
Theorem new_batch_id_format (t : datetime) :
  String.length (new_batch_id t) = 8%nat ∧
  Forall (λ c, is_decimal_digit c = true) (list_ascii_of_string (new_batch_id t)) ∧
  truthy_str (Some (new_batch_id t)) = true.
Proof.
  rewrite new_batch_id_digits.
  assert (Hlen : String.length (digits 2 (second t) +:+ digits 6 (microsecond t))
                 = 8%nat) by (by rewrite length_append, !length_digits).
  split; [exact Hlen|]. split.
  - rewrite list_ascii_append. apply Forall_app. split; apply digits_decimal.
  - cbn [truthy_str].
    destruct (String.eqb_spec (digits 2 (second t) +:+ digits 6 (microsecond t)) "")
      as [E|]; [|reflexivity].
    rewrite E in Hlen. discriminate Hlen.
Qed.

End BatchIdProperties.

Section ClientProperties.

Context `{PyStr}.

Lemma submit_response_not_dict (c : Z) (d : json) (h : list (string * string)) :
  is_obj d = false →
  submit_response c d h = Raise (AttributeError (type_name d) "get").
Proof.
  intros Hd. unfold submit_response.
  destruct ((200 <=? c) && (c <? 300)); destruct d; try discriminate; reflexivity.
Qed.

(** X25: what [submit_identifier] returns.  A success always carries a
    non-empty request id and no error, and is returned only for a 2xx answer
    with a JSON object as body when the API key is set; a failure always
    carries an error and never a request id.  No outcome makes it raise. *)
Theorem submit_identifier_result (api_key : option string)
    (outcome : http_outcome) :
  let r := submit_identifier api_key outcome in
  if sd_success r then
    (∃ rid, sd_request_id r = Some rid ∧ truthy rid = true) ∧
    sd_error r = None ∧ truthy_str api_key = true ∧
    ∃ c d h, outcome = HttpResponse c d h ∧ 200 ≤ c < 300 ∧ is_obj d = true
  else
    sd_request_id r = None ∧ ∃ e, sd_error r = Some e.
Proof.
  cbn zeta. unfold submit_identifier.
  destruct (truthy_str api_key) eqn:Hk; cbn [negb]; [|cbn; eauto].
  destruct outcome as [|msg|c d h]; [cbn; eauto|cbn; eauto|].
  destruct (is_obj d) eqn:Hd.
  - apply is_obj_inv in Hd as [o ->]. unfold submit_response.
    rewrite !py_get_obj. cbn [mbind result_bind].
    destruct ((200 <=? c) && (c <? 300)) eqn:Hc.
    + match goal with
      | |- context [negb (truthy ?x)] => destruct (truthy x) eqn:Ht
      end; cbn [negb sd_success sd_request_id sd_error].
      * split; [eauto|]. split; [reflexivity|]. split; [reflexivity|].
        exists c, (JObj o), h.
        apply andb_prop in Hc as [?%Z.leb_le ?%Z.ltb_lt]. auto.
      * eauto.
    + cbn [sd_success sd_request_id sd_error]. eauto.
  - rewrite (submit_response_not_dict c d h Hd). cbn. eauto.
Qed.

(** X26: an answer whose body is not a JSON object (a list, a string, a
    number) is reported as a failed submission carrying the text of the
    [AttributeError], without diagnostics, whatever the status code. *)
Theorem submit_identifier_body_not_dict (api_key : option string) (c : Z)
    (d : json) (h : list (string * string)) :
  truthy_str api_key = true → is_obj d = false →
  submit_identifier api_key (HttpResponse c d h) =
    mk_submit_dict false None
      (Some (JStr ("'" +:+ type_name d +:+ "' object has no attribute 'get'")))
      None.
Proof.
  intros Hk Hd. unfold submit_identifier. rewrite Hk. cbn [negb].
  by rewrite (submit_response_not_dict c d h Hd).
Qed.

End ClientProperties.

(** * The claims on concrete inputs *)

Section Concrete.

#[local] Existing Instance ascii_pystr.
#[local] Existing Instance utf8_codec.

(** C7, as stated, fails on the empty payload [[]]: no row is produced. *)
Lemma C7_empty_payload_no_row : ¬ at_least_one_row (JList []).
Proof. intros (r & rs & Hf). discriminate Hf. Qed.

Lemma C7_witness :
  let p := JList [item_two_socials] in
  truthy p = true ∧ wf_payload p = true ∧
  ∃ r rs, flatten_callback_payload p = Ok (r :: rs) ∧
          (length (payload_items p) ≤ length (r :: rs))%nat.
Proof.
  split; [reflexivity|]. split; [vm_compute; reflexivity|].
  apply C7_nonempty_payload_at_least_one_row; vm_compute; reflexivity.
Defined.

Example flatten_two_socials :
  flatten_callback_payload (JList [item_two_socials]) =
    Ok [mk_row (JStr "u1") (JStr "Jane Doe") (JStr "success")
          (JStr "https://www.linkedin.com/in/jane") JNull JNull JNull].
Proof. vm_compute. reflexivity. Qed.

Example flatten_two_contacts :
  flatten_callback_payload (JList [item_two_contacts]) =
    Ok [mk_row (JStr "u2") (JStr "John Roe") (JStr "success")
          (JStr "https://www.linkedin.com/in/john-roe")
          (JStr "email") (JStr "john@example.com") (JStr "work");
        mk_row (JStr "u2") (JStr "John Roe") (JStr "success")
          (JStr "https://www.linkedin.com/in/john-roe")
          (JStr "phone") (JStr "+1 555 0100") JNull].
Proof. vm_compute. reflexivity. Qed.

(** C8, as stated, fails on a candidate whose first LinkedIn-typed entry has
    no link while a later one has: the row shows the submitted identifier. *)
Lemma C8_first_linkedin_entry_shadows : ¬ linkedin_link_when_exists item_two_socials.
Proof.
  intros Hc.
  specialize (Hc [mk_row (JStr "u1") (JStr "Jane Doe") (JStr "success")
                    (JStr "https://www.linkedin.com/in/jane") JNull JNull JNull]).
  assert (Hrows : flatten_item item_two_socials =
            Ok [mk_row (JStr "u1") (JStr "Jane Doe") (JStr "success")
                  (JStr "https://www.linkedin.com/in/jane") JNull JNull JNull])
    by (vm_compute; reflexivity).
  specialize (Hc Hrows).
  assert (Hex : ∃ s, s ∈ item_socials item_two_socials ∧ linkedin_typed s = true ∧
                     truthy (field s "link") = true).
  { exists (JObj [("type", JStr "linkedin");
                  ("link", JStr "https://www.linkedin.com/in/jane-doe")]).
    split; [|split; vm_compute; reflexivity].
    change (item_socials item_two_socials) with
      [JObj [("type", JStr "li")];
       JObj [("type", JStr "linkedin");
             ("link", JStr "https://www.linkedin.com/in/jane-doe")]].
    apply list_elem_of_further, list_elem_of_here. }
  specialize (Hc Hex). apply Forall_inv in Hc as (s & Hs & _ & Hl).
  change (item_socials item_two_socials) with
      [JObj [("type", JStr "li")];
       JObj [("type", JStr "linkedin");
             ("link", JStr "https://www.linkedin.com/in/jane-doe")]] in Hs.
  apply elem_of_cons in Hs as [-> | Hs]; [discriminate Hl|].
  apply elem_of_cons in Hs as [-> | Hs]; [discriminate Hl|].
  inversion Hs.
Qed.

Lemma C8_witness :
  let p := JList [item_two_contacts; item_two_socials] in
  truthy p = true ∧ wf_payload p = true ∧
  ∃ rss, flatten_callback_payload p = Ok (concat rss) ∧
         Forall2 (λ it rows,
                    flatten_item it = Ok rows ∧ item_rows_ok it rows ∧
                    Forall (λ r, linkedin_url r =
                              match List.find linkedin_typed (item_socials it) with
                              | Some s => if truthy (field s "link")
                                          then field s "link" else field it "item"
                              | None => field it "item"
                              end) rows)
           (payload_items p) rss.
Proof.
  split; [reflexivity|]. split; [vm_compute; reflexivity|].
  apply C8_rows_per_item; vm_compute; reflexivity.
Defined.

Example new_batch_id_t_upload : new_batch_id t_upload = "07000123".
Proof. vm_compute. reflexivity. Qed.

Example uploaded_status :
  read_status "07000123" w_uploaded =
    mk_status (Some "processing") (Some "user@example.com") (Some 1)
      (Some ["req-1"]) (Some 0) (Some [])
      (Some [mk_submission url_john true (Some "req-1") None
               (Some (JObj [("status_code", JInt 200)]))]).
Proof. vm_compute. reflexivity. Qed.

Example uploaded_resolves :
  find_batch_by_request "req-1" w_uploaded = Some "07000123".
Proof. vm_compute. reflexivity. Qed.

(** The world after the callback of [req-1] was delivered once, and twice. *)
Example delivered_once :
  let w1 := snd (callback None delivery_john w_uploaded) in
  received_of "07000123" w1 = 1 ∧ pending_of "07000123" w1 = [] ∧
  is_complete "07000123" w1 = true ∧ table_of "07000123" w1 = rows_john ∧
  sent w1 = [ResultEmail "user@example.com" "07000123" rows_john].
Proof. vm_compute. repeat split. Qed.

Example delivered_twice :
  let w2 := callbacks [(None, delivery_john); (None, delivery_john)] w_uploaded in
  received_of "07000123" w2 = 2 ∧ callback_errors "07000123" w2 = 0 ∧
  total_items_of "07000123" w2 = 1 ∧
  table_of "07000123" w2 = rows_john ++ rows_john ∧
  sent w2 = [ResultEmail "user@example.com" "07000123" rows_john;
             ResultEmail "user@example.com" "07000123" (rows_john ++ rows_john)].
Proof. vm_compute. repeat split. Qed.

Example delivered_twice_io :
  callbacks_io [(None, delivery_john); (None, delivery_john)] w_uploaded =
  callbacks [(None, delivery_john); (None, delivery_john)] w_uploaded.
Proof. vm_compute. reflexivity. Qed.

(** C1, as stated, fails: the second delivery of the callback of [req-1]
    takes [received] from 1 to 2 and doubles the rows. *)
Lemma C1_redelivery_counts_twice :
  ¬ redelivery_idempotent None delivery_john "07000123" w_uploaded.
Proof. intros (Hrec & _). vm_compute in Hrec. discriminate Hrec. Qed.

Lemma C1_witness :
  let w1 := snd (callback_io None delivery_john w_uploaded) in
  let w2 := snd (callback_io None delivery_john w1) in
  fst (callback_io None delivery_john w_uploaded) = Accepted None (Some "07000123") ∧
  fst (callback_io None delivery_john w1) = Accepted None (Some "07000123") ∧
  ledger_of "07000123" w2 = ledger_of "07000123" w1 ∧
  pending_of "07000123" w2 = remove_first "req-1" (pending_of "07000123" w1) ∧
  received_of "07000123" w2 = received_of "07000123" w1 + 1 ∧
  table_of "07000123" w2 = table_of "07000123" w1 ++ rows_john.
Proof.
  apply (C1_redelivery_accepted_ledger_unchanged None None delivery_john
           w_uploaded "req-1" "07000123" (JList [item_two_contacts]) rows_john);
    [reflexivity | discriminate | reflexivity | vm_compute; reflexivity
    | discriminate | vm_compute; reflexivity | vm_compute; reflexivity
    | vm_compute; reflexivity].
Defined.

(** A delivery whose payload holds a lone surrogate: [results.json] cannot be
    written, the delivery is answered with 500, the ledger is left empty, and
    the status gains a callback error only. *)
Example surrogate_delivery :
  let rw := callback_io None delivery_surrogate w_uploaded in
  (∃ detail, fst rw = HTTPException 500 detail) ∧
  results_json (batch_dir "07000123" (snd rw)) = Some ∅ ∧
  download "07000123" (snd rw) = NotFound "results.csv not found for batch" ∧
  received_of "07000123" (snd rw) = 0 ∧
  pending_of "07000123" (snd rw) = ["req-1"] ∧
  callback_errors "07000123" (snd rw) = 1.
Proof. vm_compute. repeat split. eauto. Qed.


(** C3, as stated, fails: after two deliveries of its only callback the
    batch of one item has [received = 2]. *)
Lemma C3_received_exceeds_total :
  ¬ received_bounded "07000123"
      (callbacks [(None, delivery_john); (None, delivery_john)] w_uploaded).
Proof.
  unfold received_bounded.
  destruct delivered_twice as (-> & -> & -> & _). lia.
Qed.








(** C9, as stated, fails: a second register of [req-1] for another batch
    makes it resolve to that batch. *)
Lemma C9_second_register_reassigns :
  ¬ index_entry_immutable "req-1" "00000001" empty_world.
Proof.
  intros Hc. specialize (Hc "req-1" "00000002"). vm_compute in Hc.
  discriminate Hc.
Qed.

Lemma C9_witness :
  "req-2" ≠ "req-1" ∧
  find_batch_by_request "req-1"
    (map_request_to_batch "req-2" "00000002"
       (map_request_to_batch "req-1" "00000001" empty_world))
  = Some (str_strip "00000001").
Proof.
  split; [discriminate|].
  destruct (C9_index_entry_last_write_wins "req-1" "00000001" empty_world)
    as (_ & _ & Hother & _).
  apply Hother. discriminate.
Defined.

(** C10, as stated, fails: two creations one minute apart get the same id. *)
Lemma C10_same_id_one_minute_apart : ¬ batch_ids_differ t_upload t_minute_later.
Proof.
  intros Hc. apply Hc; [discriminate | vm_compute; reflexivity].
Qed.

Lemma C10_witness :
  valid_datetime t_upload ∧ valid_datetime t_minute_later ∧
  (new_batch_id t_upload = new_batch_id t_minute_later ↔
   second t_upload = second t_minute_later ∧
   microsecond t_upload = microsecond t_minute_later).
Proof.
  assert (Hv1 : valid_datetime t_upload) by (unfold valid_datetime; cbn; lia).
  assert (Hv2 : valid_datetime t_minute_later)
    by (unfold valid_datetime; cbn; lia).
  split; [exact Hv1|]. split; [exact Hv2|].
  apply (C10_batch_id_second_microsecond t_upload t_minute_later Hv1 Hv2).
Defined.

End Concrete.

(** * The further properties on concrete inputs *)

Section ConcreteProperties.

#[local] Existing Instance ascii_pystr.
#[local] Existing Instance utf8_codec.

Lemma result_table_append_only_witness :
  download "07000123" w_delivered_once = Found rows_john ∧
  ∃ t', download "07000123" (callbacks [(None, delivery_john)] w_delivered_once)
        = Found (rows_john ++ t').
Proof.
  assert (Hd : download "07000123" w_delivered_once = Found rows_john)
    by (vm_compute; reflexivity).
  split; [exact Hd|].
  apply (result_table_append_only [(None, delivery_john)] w_delivered_once
           "07000123" rows_john Hd).
Defined.

Lemma ledger_entries_never_change_witness :
  deliveries_writable [(None, delivery_bad)] w_delivered_once = true ∧
  ledger_of "07000123" w_delivered_once !! "req-1" = Some (JList [item_two_contacts]) ∧
  ledger_of "07000123" (callbacks_io [(None, delivery_bad)] w_delivered_once) !! "req-1"
  = Some (JList [item_two_contacts]).
Proof.
  assert (Hw : deliveries_writable [(None, delivery_bad)] w_delivered_once = true)
    by (vm_compute; reflexivity).
  assert (Hl : ledger_of "07000123" w_delivered_once !! "req-1"
               = Some (JList [item_two_contacts])) by (vm_compute; reflexivity).
  split; [exact Hw|]. split; [exact Hl|].
  apply (ledger_entries_never_change [(None, delivery_bad)] w_delivered_once
           "07000123" "req-1" (JList [item_two_contacts]) Hw Hl).
Defined.

Lemma other_batches_untouched_witness :
  batch_dir "99999999" (snd (callback None delivery_john w_uploaded))
  = batch_dir "99999999" w_uploaded.
Proof.
  apply (other_batches_untouched None delivery_john w_uploaded "99999999").
  vm_compute. discriminate.
Defined.

Lemma complete_implies_nothing_pending_witness :
  pending_of "07000123" (callbacks [(None, delivery_john)] w_uploaded) = [].
Proof.
  apply (complete_implies_nothing_pending [(None, delivery_john)] w_uploaded
           "07000123").
  - intros Hc. vm_compute in Hc. discriminate Hc.
  - vm_compute. reflexivity.
Defined.

Lemma completion_email_condition_witness :
  fst (callback_io None delivery_john w_uploaded) = Accepted None (Some "07000123") ∧
  sent (snd (callback_io None delivery_john w_uploaded)) =
    sent w_uploaded ++
    (if match remove_first "req-1" (pending_of "07000123" w_uploaded) with
        | [] => true | _ => false end
        && truthy_str (st_email (read_status "07000123" w_uploaded))
        && (csv_exists "07000123" w_uploaded
            || match rows_john with [] => false | _ => true end)
     then [ResultEmail (default "" (st_email (read_status "07000123" w_uploaded)))
             "07000123" (table_of "07000123" w_uploaded ++ rows_john)]
     else []).
Proof.
  apply (completion_email_condition None delivery_john w_uploaded "req-1"
           "07000123" (JList [item_two_contacts]) rows_john);
    [reflexivity | discriminate | reflexivity | vm_compute; reflexivity
    | discriminate | vm_compute; reflexivity | vm_compute; reflexivity
    | vm_compute; reflexivity].
Defined.

Lemma delivery_before_status_written_witness :
  let w' := snd (callback_io None delivery_john w_registered) in
  fst (callback_io None delivery_john w_registered) = Accepted None (Some "07000123") ∧
  read_status "07000123" w' =
    mk_status (Some "complete") None None (Some []) (Some 1) None None ∧
  sent w' = sent w_registered.
Proof.
  apply (delivery_before_status_written None delivery_john w_registered "req-1"
           "07000123" (JList [item_two_contacts]) rows_john);
    [reflexivity | discriminate | reflexivity | vm_compute; reflexivity
    | discriminate | vm_compute; reflexivity | vm_compute; reflexivity
    | vm_compute; reflexivity | vm_compute; reflexivity].
Defined.

Lemma ledger_first_write_wins_witness :
  ledger_writable
    (ledger_setdefault "req-1" (JList [item_two_contacts])
       (ledger_of "07000123" w_uploaded)) = true ∧
  snd (append_results_json_io "07000123" "req-1" (JList [item_two_contacts])
         w_uploaded) = None ∧
  ledger_of "07000123"
    (fst (append_results_json_io "07000123" "req-1" (JList [item_two_contacts])
            w_uploaded)) !! "req-1"
  = Some (default (JList [item_two_contacts])
            (ledger_of "07000123" w_uploaded !! "req-1")).
Proof.
  assert (Hw : ledger_writable
                 (ledger_setdefault "req-1" (JList [item_two_contacts])
                    (ledger_of "07000123" w_uploaded)) = true)
    by (vm_compute; reflexivity).
  split; [exact Hw|].
  destruct (ledger_first_write_wins "07000123" "req-1" (JList [item_two_contacts])
              JNull w_uploaded) as [Hok _].
  destruct (Hok Hw) as (Hnone & Hfirst & _). split; [exact Hnone | exact Hfirst].
Defined.


Lemma completes_without_email_when_no_rows_witness :
  let w' := snd (callback None delivery_empty w_uploaded) in
  fst (callback None delivery_empty w_uploaded) = Accepted None (Some "07000123") ∧
  is_complete "07000123" w' = true ∧
  sent w' = sent w_uploaded ∧
  download "07000123" w' = NotFound "results.csv not found for batch".
Proof.
  apply (completes_without_email_when_no_rows None delivery_empty w_uploaded
           "req-1" "07000123" (JList []));
    [reflexivity | discriminate | reflexivity | vm_compute; reflexivity
    | discriminate | reflexivity | vm_compute; reflexivity
    | vm_compute; reflexivity].
Defined.



Lemma upload_without_urls_witness :
  batch_dir "99999999"
    (snd (upload t_upload url_john "user@example.com" [] w_uploaded))
  = batch_dir "99999999" w_uploaded.
Proof.
  destruct (upload_without_urls t_upload url_john "user@example.com" w_uploaded)
    as (_ & _ & _ & _ & Hother).
  apply Hother. vm_compute. discriminate.
Defined.


Lemma complete_after_upload_nothing_pending_witness :
  pending_of (new_batch_id t_upload)
    (callbacks [(None, delivery_john)]
       (snd (upload t_upload url_john "user@example.com" two_items empty_world)))
  = [].
Proof.
  apply (complete_after_upload_nothing_pending t_upload url_john
           "user@example.com" two_items empty_world [(None, delivery_john)]).
  - discriminate.
  - vm_compute. reflexivity.
Defined.



Lemma flattened_rows_per_item_witness :
  (1 ≤ length (payload_items (JList [item_two_contacts])) ≤ length rows_john)%nat.
Proof.
  apply (flattened_rows_per_item (JList [item_two_contacts]) rows_john);
    vm_compute; reflexivity.
Defined.

Lemma item_rows_share_identity_witness :
  let r1 := mk_row (JStr "u2") (JStr "John Roe") (JStr "success")
              (JStr "https://www.linkedin.com/in/john-roe")
              (JStr "email") (JStr "john@example.com") (JStr "work") in
  let r2 := mk_row (JStr "u2") (JStr "John Roe") (JStr "success")
              (JStr "https://www.linkedin.com/in/john-roe")
              (JStr "phone") (JStr "+1 555 0100") JNull in
  r1 ∈ rows_john ∧ r2 ∈ rows_john ∧
  uid r1 = uid r2 ∧ full_name r1 = full_name r2 ∧ status r1 = status r2 ∧
  linkedin_url r1 = linkedin_url r2.
Proof.
  cbn zeta.
  assert (H1 : mk_row (JStr "u2") (JStr "John Roe") (JStr "success")
                 (JStr "https://www.linkedin.com/in/john-roe")
                 (JStr "email") (JStr "john@example.com") (JStr "work")
               ∈ rows_john) by apply list_elem_of_here.
  assert (H2 : mk_row (JStr "u2") (JStr "John Roe") (JStr "success")
                 (JStr "https://www.linkedin.com/in/john-roe")
                 (JStr "phone") (JStr "+1 555 0100") JNull
               ∈ rows_john) by apply list_elem_of_further, list_elem_of_here.
  split; [exact H1|]. split; [exact H2|].
  apply (item_rows_share_identity item_two_contacts rows_john);
    [vm_compute; reflexivity | exact H1 | exact H2].
Defined.

Lemma submit_identifier_body_not_dict_witness :
  submit_identifier (Some "key") (HttpResponse 200 (JList []) []) =
    mk_submit_dict false None
      (Some (JStr ("'" +:+ type_name (JList []) +:+ "' object has no attribute 'get'")))
      None.
Proof.
  apply (submit_identifier_body_not_dict (Some "key") 200 (JList []) []);
    reflexivity.
Defined.

Example submit_identifier_created :
  submit_identifier (Some "key")
    (HttpResponse 201 (JObj [("requestId", JInt 42)])
       [("content-type", "application/json"); ("server", "nginx")]) =
    mk_submit_dict true (Some (JInt 42)) None
      (Some (JObj [("status_code", JInt 201);
                   ("headers", JObj [("content-type", JStr "application/json")]);
                   ("body", JObj [("requestId", JInt 42)])])).
Proof. vm_compute. reflexivity. Qed.

Example submit_identifier_not_found :
  submit_identifier (Some "key") (HttpResponse 404 (JObj []) []) =
    mk_submit_dict false None (Some (JStr "HTTP 404"))
      (Some (JObj [("status_code", JInt 404); ("headers", JObj []);
                   ("body", JObj [])])).
Proof. vm_compute. reflexivity. Qed.

End ConcreteProperties.
